(** * DataRun: the park-ranking pipeline and its mediator

    A shallow embedding of [mediator.py] and [consultas_parques.py].

    Modelling conventions.
    - A finite Python float is modelled by its exact rational value
      ([Q]); the rounding error of the individual float operations is not
      modelled, and NaN and the infinities are left out.  [haversine_km] is
      modelled twice: in exact arithmetic over the reals in
      [Module Haversine], for the geometry of the formula, and in IEEE 754
      binary64 in [Module Binary64], for what the code computes and where
      it raises; the two differ near antipodal points, where rounding takes
      the radicand above 1.  The pipeline takes the float the estimator
      computes, or its domain error, as a function of the four coordinates.
    - Every HTTP exchange ([requests.get] followed by [raise_for_status] and
      [json]) is modelled by its outcome, a [response]; the three providers
      are functions from the request parameters to a [response].
    - A Python exception is a value of [exn]; a computation that may raise
      returns an [outcome].  The ranking pipeline runs in a small monad [M]
      that threads the log of provider calls issued so far and stops at the
      first exception.
    - The [print] calls of the pipeline are not modelled. *)

From Stdlib Require Import ZArith QArith Qround List String Bool Lia Lqa.
From Stdlib Require Import Reals Lra.
From Stdlib Require Import Ascii Qabs.
From Stdlib Require Floats.PrimFloat.
Import ListNotations.

Local Open Scope Q_scope.

(** ** Python values and exceptions *)

Inductive exn : Type :=
| RequestException   (* transport failure inside [requests.get] *)
| HTTPError          (* [raise_for_status] on a 4xx / 5xx answer *)
| IndexError         (* [routes[0]["legs"][0]] on an empty list of legs *)
| ValueError.        (* [math] domain error *)

Inductive outcome (A : Type) : Type :=
| Ok (a : A)
| Raise (e : exn).
Arguments Ok {A} a.
Arguments Raise {A} e.

(** What one HTTP exchange can end in. *)
Inductive response (A : Type) : Type :=
| TransportFailure
| HttpStatusError (status : Z)
| Json (data : A).
Arguments TransportFailure {A}.
Arguments HttpStatusError {A} status.
Arguments Json {A} data.

(** [r = requests.get(...); r.raise_for_status(); data = r.json()] *)
Definition fetch {A : Type} (r : response A) : outcome A :=
  match r with
  | TransportFailure => Raise RequestException
  | HttpStatusError _ => Raise HTTPError
  | Json data => Ok data
  end.

(** A calendar date, by its proleptic ordinal ([date.toordinal()]). *)
Definition date := Z.

(** ** Comparisons and rounding on floats *)

Definition Qltb (x y : Q) : bool := negb (Qle_bool y x).
Definition Qgtb (x y : Q) : bool := Qltb y x.

(** Rounding to the nearest integer, ties to the even one. *)
Definition round_half_even (q : Q) : Z :=
  let n := Qfloor q in
  match Qcompare (q - inject_Z n) (1 # 2) with
  | Lt => n
  | Gt => (n + 1)%Z
  | Eq => if Z.even n then n else (n + 1)%Z
  end.

(** Python's [round(x, ndigits)] on a float, for [ndigits >= 0]. *)
Definition py_round (x : Q) (ndigits : nat) : Q :=
  let scale := inject_Z (10 ^ Z.of_nat ndigits) in
  inject_Z (round_half_even (x * scale)) / scale.

(** Truthiness of an optional float: [None] and [0.0] are falsy. *)
Definition truthy (x : option Q) : bool :=
  match x with
  | None => false
  | Some q => negb (Qeq_bool q 0)
  end.

(** The float held by a truthy optional float. *)
Definition float_of (x : option Q) : Q :=
  match x with
  | None => 0
  | Some q => q
  end.

(** ** The pipeline monad: provider-call log and exceptions *)

Inductive call : Type :=
| OpenMeteo (lat lon : Q) (day : date)
| GoogleElevation (lat lon : Q)
| GoogleDirections (user_lat user_lon park_lat park_lon : Q).

Definition M (A : Type) : Type := list call -> outcome A * list call.

Definition ret {A : Type} (a : A) : M A := fun log => (Ok a, log).

Definition bind {A B : Type} (m : M A) (f : A -> M B) : M B :=
  fun log =>
    match m log with
    | (Ok a, log') => f a log'
    | (Raise e, log') => (Raise e, log')
    end.

(** A pure computation that may raise. *)
Definition lift {A : Type} (o : outcome A) : M A := fun log => (o, log).

(** One provider request: log it, then deliver its outcome. *)
Definition request {A : Type} (c : call) (r : response A) : M A :=
  fun log => (fetch r, log ++ [c]).

Notation "x <- m ;; k" := (bind m (fun x => k))
  (at level 61, m at next level, right associativity).
Notation "' pat <- m ;; k" := (bind m (fun x => match x with pat => k end))
  (at level 61, pat pattern, m at next level, right associativity).

(** ** mediator.py *)

Record forecast : Type := {
  temperature_2m : list Q;     (* data["hourly"]["temperature_2m"] *)
  precipitation : list Q       (* data["hourly"]["precipitation"] *)
}.

(** The body of the [for t, p in zip(temps, precs)] loop. *)
Definition hour_step (score : Z) (tp : Q * Q) : Z :=
  let '(t, p) := tp in
  if Qgtb p 2 then score                                    (* continue *)
  else if Qle_bool 10 t && Qle_bool t 24 then (score + 2)%Z
  else if (Qle_bool 5 t && Qltb t 10) || (Qltb 24 t && Qle_bool t 28)
       then (score + 1)%Z
  else score.

(** [score = 0], then the loop over [zip(temps, precs)]; [zip] stops at the
    end of the shorter sequence, as [combine] does. *)
Definition hourly_score (temps precs : list Q) : Z :=
  fold_left hour_step (combine temps precs) 0%Z.

(** The contribution of one hour, in the words of the specification: nothing
    under heavy rain, otherwise by the temperature band. *)
Definition hour_points (t p : Q) : Z :=
  if Qlt_le_dec 2 p then 0%Z
  else if Qlt_le_dec t 10 then
         (if Qlt_le_dec t 5 then 0%Z else 1%Z)          (* [5, 10) *)
       else if Qlt_le_dec 24 t then
         (if Qlt_le_dec 28 t then 0%Z else 1%Z)         (* (24, 28] *)
       else 2%Z.                                         (* [10, 24] *)

Definition points_of (tp : Q * Q) : Z := hour_points (fst tp) (snd tp).

(** The sum of the contributions over the hours [0 .. n-1] of two series. *)
Definition hours_sum (temps precs : list Q) : Z :=
  fold_right Z.add 0%Z
    (map (fun h => hour_points (nth h temps 0) (nth h precs 0))
         (seq 0 (List.length temps))).

(** The terrain category of an elevation. *)
Definition elevation_category_of (elevation : Q) : string :=
  if Qltb elevation 650 then "llano"%string
  else if Qltb elevation 750 then "moderado"%string
  else "elevado"%string.

(** [data["routes"][0]["legs"][0]["duration"]["value"]], where a route is
    given by the duration values (seconds) of its legs. *)
Definition first_leg_duration (routes : list (list Z)) : outcome Z :=
  match routes with
  | [] => Raise IndexError
  | legs :: _ =>
      match legs with
      | [] => Raise IndexError
      | duration_sec :: _ => Ok duration_sec
      end
  end.

(** [get_elevation] after the exchange: no result gives
    [(None, "desconocido")], otherwise the first result is classified. *)
Definition elevation_of_results (results : list Q) : option Q * string :=
  match results with
  | [] => (None, "desconocido"%string)
  | elevation :: _ => (Some elevation, elevation_category_of elevation)
  end.

(** [get_best_route] after the exchange: no route gives [None], otherwise
    the first leg of the first route, in minutes. *)
Definition minutes_of_routes (routes : list (list Z)) : outcome (option Q) :=
  match routes with
  | [] => Ok None
  | _ :: _ =>
      match first_leg_duration routes with
      | Ok duration_sec => Ok (Some (inject_Z duration_sec / 60))
      | Raise e => Raise e
      end
  end.

Section Mediator.

(** The three providers, as functions of the request parameters. *)
Variable open_meteo : Q -> Q -> date -> response forecast.
(** [data.get("results")], each result by its ["elevation"]; a missing key
    and an empty list are both falsy and both given as [[]]. *)
Variable google_elevation : Q -> Q -> response (list Q).
(** [data.get("routes")], each route by the durations of its legs. *)
Variable google_directions : Q -> Q -> Q -> Q -> response (list (list Z)).

Definition get_weather_score_for_date (lat lon : Q) (day : date) : M Z :=
  data <- request (OpenMeteo lat lon day) (open_meteo lat lon day) ;;
  ret (hourly_score (temperature_2m data) (precipitation data)).

Definition get_elevation (lat lon : Q) : M (option Q * string) :=
  results <- request (GoogleElevation lat lon) (google_elevation lat lon) ;;
  ret (elevation_of_results results).

Definition get_best_route (user_lat user_lon park_lat park_lon : Q)
  : M (option Q) :=
  routes <- request (GoogleDirections user_lat user_lon park_lat park_lon)
                    (google_directions user_lat user_lon park_lat park_lon) ;;
  lift (minutes_of_routes routes).

End Mediator.

(** ** consultas_parques.py *)

Record park : Type := {
  park_name : string;                 (* park["name"] *)
  park_address : option string;       (* park.get("address") *)
  park_coordinates : Q * Q            (* park["location"]["coordinates"]: lon, lat *)
}.

(** The dictionary built for a park that passed the distance filter. *)
Record candidate : Type := {
  day : date;
  user_lat : Q;
  user_lon : Q;
  name : string;
  address : option string;
  location_lat : Q;
  location_lon : Q;
  distance_km : Q;
  route_minutes : option Q;
  elevation : option Q;
  elevation_category : string;
  weather_score : Z;
  final_score : Q
}.

(** The combined score: [score = weather_score; score -= dist;
    if route_min: score -= route_min / 10]. *)
Definition score (ws : Z) (dist : Q) (route_min : option Q) : Q :=
  let score := inject_Z ws in
  let score := score - dist in
  if truthy route_min then score - float_of route_min / 10 else score.

(** The dictionary [candidato]. *)
Definition candidato (target_date : date) (ulat ulon : Q) (p : park)
    (lat lon dist : Q) (elev : option Q * string) (route_min : option Q)
    (ws : Z) : candidate :=
  {| day := target_date;
     user_lat := ulat;
     user_lon := ulon;
     name := park_name p;
     address := park_address p;
     location_lat := lat;
     location_lon := lon;
     distance_km := py_round dist 2;
     route_minutes :=
       if negb (truthy route_min) then None
       else Some (py_round (float_of route_min) 1);
     elevation := fst elev;
     elevation_category := snd elev;
     weather_score := ws;
     final_score := py_round (score ws dist route_min) 2 |}.

(** [if mejor is None or candidato["final_score"] > mejor["final_score"]:
    mejor = candidato] *)
Definition update_mejor (mejor : option candidate) (c : candidate)
  : option candidate :=
  match mejor with
  | None => Some c
  | Some m => if Qgtb (final_score c) (final_score m) then Some c else Some m
  end.

Section Pipeline.

(** The float computed by [haversine_km], or its domain error. *)
Variable haversine_km : Q -> Q -> Q -> Q -> outcome Q.
Variable open_meteo : Q -> Q -> date -> response forecast.
Variable google_elevation : Q -> Q -> response (list Q).
Variable google_directions : Q -> Q -> Q -> Q -> response (list (list Z)).
(** The documents of the [parks] collection, in the order [find({})]
    yields them, and [datetime.today().date()]. *)
Variable parks_col : list park.
Variable today : date.

Section Query.

Variables (ulat ulon : Q) (target_date : date) (max_distance_km : Q)
          (ws : Z).

(** One iteration of the loop over the parks: [None] when the iteration
    ends in [continue], the new candidate otherwise. *)
Definition process_park (p : park) : M (option candidate) :=
  let '(lon, lat) := park_coordinates p in
  dist <- lift (haversine_km ulat ulon lat lon) ;;
  if Qgtb dist max_distance_km then ret None
  else
    elev <- get_elevation google_elevation lat lon ;;
    route_min <- get_best_route google_directions ulat ulon lat lon ;;
    ret (Some (candidato target_date ulat ulon p lat lon dist elev
                         route_min ws)).

(** The parks that pass the distance filter of [process_park]. *)
Definition in_range (p : park) : bool :=
  let '(lon, lat) := park_coordinates p in
  match haversine_km ulat ulon lat lon with
  | Ok dist => negb (Qgtb dist max_distance_km)
  | Raise _ => false
  end.

(** What the iteration for a park in range asks of the providers. *)
Definition calls_of (p : park) : list call :=
  let '(lon, lat) := park_coordinates p in
  [GoogleElevation lat lon; GoogleDirections ulat ulon lat lon].

(** [built p c]: the park [p] passed the distance filter, both of its
    lookups returned, and [c] is the dictionary made from their answers. *)
Definition built (p : park) (c : candidate) : Prop :=
  exists dist results routes route_min,
    haversine_km ulat ulon (snd (park_coordinates p))
                 (fst (park_coordinates p)) = Ok dist /\
    dist <= max_distance_km /\
    google_elevation (snd (park_coordinates p)) (fst (park_coordinates p))
    = Json results /\
    google_directions ulat ulon (snd (park_coordinates p))
                      (fst (park_coordinates p)) = Json routes /\
    minutes_of_routes routes = Ok route_min /\
    c = candidato target_date ulat ulon p (snd (park_coordinates p))
          (fst (park_coordinates p)) dist (elevation_of_results results)
          route_min ws.

(** [answered p]: the distance to [p] is computed and, if [p] is within
    range, both of its lookups return. *)
Definition answered (p : park) : Prop :=
  exists dist,
    haversine_km ulat ulon (snd (park_coordinates p))
                 (fst (park_coordinates p)) = Ok dist /\
    (dist <= max_distance_km ->
     exists results routes route_min,
       google_elevation (snd (park_coordinates p)) (fst (park_coordinates p))
       = Json results /\
       google_directions ulat ulon (snd (park_coordinates p))
                         (fst (park_coordinates p)) = Json routes /\
       minutes_of_routes routes = Ok route_min).

(** The loop, with its two accumulators [mejor] and [candidatos]. *)
Fixpoint for_parks (parks : list park) (mejor : option candidate)
    (candidatos : list candidate) : M (option candidate * list candidate) :=
  match parks with
  | [] => ret (mejor, candidatos)
  | p :: rest =>
      r <- process_park p ;;
      match r with
      | None => for_parks rest mejor candidatos
      | Some c => for_parks rest (update_mejor mejor c) (candidatos ++ [c])
      end
  end.

End Query.

Definition best_park_for_day (ulat ulon : Q) (day_offset : Z)
    (max_distance_km : Q) : M (option candidate * list candidate) :=
  let parks := parks_col in
  let target_date := (today + day_offset)%Z in
  ws <- get_weather_score_for_date open_meteo ulat ulon target_date ;;
  for_parks ulat ulon target_date max_distance_km ws parks None [].

End Pipeline.

(** ** A sample query

    Puerta del Sol and five parks of the catalog.  [haversine_km] tabulates,
    to seven decimals, the distance from Puerta del Sol to each of them. *)

Module Sample.

Definition sol_lat : Q := 404168 # 10000.
Definition sol_lon : Q := - (37038 # 10000).

Definition retiro : park :=
  {| park_name := "Parque de El Retiro";
     park_address := Some "Plaza de la Independencia, 7"%string;
     park_coordinates := (- (36845 # 10000), 404153 # 10000) |}.
Definition oeste : park :=
  {| park_name := "Parque del Oeste";
     park_address := Some "Paseo de Moret, 2"%string;
     park_coordinates := (- (37260 # 10000), 404300 # 10000) |}.
Definition casa_de_campo : park :=
  {| park_name := "Casa de Campo";
     park_address := None;
     park_coordinates := (- (37510 # 10000), 404189 # 10000) |}.
Definition alcala : park :=
  {| park_name := "Parque O'Donnell";
     park_address := Some "Alcala de Henares"%string;
     park_coordinates := (- (33636 # 10000), 404818 # 10000) |}.
Definition aranjuez : park :=
  {| park_name := "Jardin del Principe";
     park_address := Some "Aranjuez"%string;
     park_coordinates := (- (36025 # 10000), 400311 # 10000) |}.

Definition distances : list (park * Q) :=
  [ (retiro, 16424099 # 10000000);
    (oeste, 23845005 # 10000000);
    (casa_de_campo, 40026153 # 10000000);
    (alcala, 296802161 # 10000000);
    (aranjuez, 437417011 # 10000000) ].

Definition at_coordinates (lat lon : Q) (p : park) : bool :=
  Qeq_bool (fst (park_coordinates p)) lon &&
  Qeq_bool (snd (park_coordinates p)) lat.

Definition haversine_km (lat1 lon1 lat2 lon2 : Q) : outcome Q :=
  if Qeq_bool lat1 lat2 && Qeq_bool lon1 lon2 then Ok 0
  else
    match find (fun pd => at_coordinates lat2 lon2 (fst pd)) distances with
    | Some (_, dist) => Ok dist
    | None => Raise ValueError
    end.

(** A mild day: 24 hours, of which 8 at 8 degrees, 14 at 18 degrees and 2
    at 26 degrees, with heavy rain during one of the hours at 18. *)
Definition mild_day : forecast :=
  {| temperature_2m := repeat 8 8 ++ repeat 18 14 ++ repeat 26 2;
     precipitation := repeat 0 12 ++ [5 # 2] ++ repeat 0 11 |}.

Definition open_meteo (lat lon : Q) (d : date) : response forecast :=
  Json mild_day.

Definition google_elevation (lat lon : Q) : response (list Q) :=
  Json [667].

(** Walking routes: 1500 s to El Retiro, 1055 s to Parque del Oeste, and
    no route elsewhere. *)
Definition google_directions (lat1 lon1 lat2 lon2 : Q)
  : response (list (list Z)) :=
  if at_coordinates lat2 lon2 retiro then Json [[1500%Z]]
  else if at_coordinates lat2 lon2 oeste then Json [[1055%Z]]
  else Json [].

(** A route of no duration at all, whatever the park. *)
Definition directions_at_the_door (lat1 lon1 lat2 lon2 : Q)
  : response (list (list Z)) :=
  Json [[0%Z]].

(** The elevation provider out of service. *)
Definition elevation_down (lat lon : Q) : response (list Q) :=
  HttpStatusError 503.

(** 3 November 2026, as an ordinal. *)
Definition today : date := 739923%Z.

(** The query of tomorrow's best park within 15 km of Puerta del Sol, over
    a given catalog. *)
Definition ranking (parks : list park)
  : outcome (option candidate * list candidate) * list call :=
  best_park_for_day haversine_km open_meteo google_elevation
    google_directions parks today sol_lat sol_lon 1 15 [].

End Sample.

(** ** The distance estimator, over the reals

    The expression of [haversine_km] read in exact arithmetic: [math.sin],
    [math.cos], [math.sqrt] and [math.asin] are the real functions and no
    operation rounds.  This is the formula the code evaluates, not the
    floats it gets: over the reals the radicand of two points with
    latitudes in [-90, 90] never leaves [0, 1], whereas in binary64 it
    does (see [Binary64] below).  What is proved of this model is proved of
    the formula. *)

Module Haversine.

Local Open Scope R_scope.

(** [math.radians] *)
Definition radians (x : R) : R := x * (PI / 180).

(** [math.sqrt]: a domain error on a negative argument. *)
Definition math_sqrt (x : R) : outcome R :=
  if Rlt_dec x 0 then Raise ValueError else Ok (sqrt x).

(** [math.asin]: a domain error outside [-1, 1]. *)
Definition math_asin (x : R) : outcome R :=
  if Rlt_dec x (-1) then Raise ValueError
  else if Rlt_dec 1 x then Raise ValueError
  else Ok (asin x).

(** The value bound to [a], the radicand. *)
Definition radicand (lat1 lon1 lat2 lon2 : R) : R :=
  let d_lat := radians (lat2 - lat1) in
  let d_lon := radians (lon2 - lon1) in
  sin (d_lat / 2) ^ 2 +
  cos (radians lat1) * cos (radians lat2) * sin (d_lon / 2) ^ 2.

(** [return 2 * R * math.asin(math.sqrt(a))], with [R = 6371]. *)
Definition of_radicand (a : R) : outcome R :=
  match math_sqrt a with
  | Raise e => Raise e
  | Ok s =>
      match math_asin s with
      | Raise e => Raise e
      | Ok t => Ok (2 * 6371 * t)
      end
  end.

Definition haversine_km (lat1 lon1 lat2 lon2 : R) : outcome R :=
  of_radicand (radicand lat1 lon1 lat2 lon2).

End Haversine.

(** ** The distance estimator, in binary64

    The arithmetic of [haversine_km] on Python floats: the operators and
    [math.sqrt] are those of IEEE 754 binary64, which the primitive floats
    compute; [sin], [cos], [asin] and [pow] are the functions of the platform's
    C library, taken as parameters.  A function of [math] raises [ValueError]
    where the C function has a domain error, and [**] raises [OverflowError]
    when the power of a finite number is infinite. *)

Module Binary64.

Import PrimFloat.
Local Open Scope float_scope.

Inductive raised : Type :=
| DomainError    (* ValueError: math domain error *)
| RangeError.    (* OverflowError: numerical result out of range *)

Inductive result : Type :=
| Value (x : float)
| Raises (e : raised).

(** [Py_MATH_PI / 180.0], the factor of [math.radians]. *)
Definition degToRad : float := 0x1.1df46a2529d39p-6.

Definition radians (x : float) : float := x * degToRad.

(** [math.sqrt]: a domain error below zero. *)
Definition math_sqrt (x : float) : result :=
  if x <? 0 then Raises DomainError else Value (sqrt x).

Section Libm.

Variables sin cos asin : float -> float.
Variable pow : float -> float -> float.

(** [math.sin] and [math.cos]: a domain error at the infinities. *)
Definition math_sin (x : float) : result :=
  if is_infinity x then Raises DomainError else Value (sin x).

Definition math_cos (x : float) : result :=
  if is_infinity x then Raises DomainError else Value (cos x).

(** [math.asin]: a domain error outside [-1, 1]. *)
Definition math_asin (x : float) : result :=
  if (x <? -1) || (1 <? x) then Raises DomainError else Value (asin x).

(** [x ** 2] *)
Definition square (x : float) : result :=
  if is_nan x then Value x
  else if is_infinity x then Value infinity
  else if x =? 0 then Value 0
  else
    let r := pow x 2 in
    if is_infinity r then Raises RangeError else Value r.

(** The value bound to [a], evaluated in the order Python evaluates it. *)
Definition radicand (lat1 lon1 lat2 lon2 : float) : result :=
  let d_lat := radians (lat2 - lat1) in
  let d_lon := radians (lon2 - lon1) in
  match math_sin (d_lat / 2) with
  | Raises e => Raises e
  | Value s1 =>
  match square s1 with
  | Raises e => Raises e
  | Value p1 =>
  match math_cos (radians lat1) with
  | Raises e => Raises e
  | Value c1 =>
  match math_cos (radians lat2) with
  | Raises e => Raises e
  | Value c2 =>
  match math_sin (d_lon / 2) with
  | Raises e => Raises e
  | Value s2 =>
  match square s2 with
  | Raises e => Raises e
  | Value p2 => Value (p1 + c1 * c2 * p2)
  end end end end end end.

(** [return 2 * R * math.asin(math.sqrt(a))], with [2 * R = 12742]. *)
Definition of_radicand (a : float) : result :=
  match math_sqrt a with
  | Raises e => Raises e
  | Value s =>
      match math_asin s with
      | Raises e => Raises e
      | Value t => Value (12742 * t)
      end
  end.

Definition haversine_km (lat1 lon1 lat2 lon2 : float) : result :=
  match radicand lat1 lon1 lat2 lon2 with
  | Raises e => Raises e
  | Value a => of_radicand a
  end.

End Libm.

End Binary64.

(** ** The C library at a pair of points

    The values glibc 2.36 on x86-64 returns at the arguments that the
    distance between (57.37602236586366, -135.27530720623122) and
    (-57.37602240666751, 44.72469269479064) asks for; elsewhere the
    stand-ins return NaN. *)

Module Glibc.

Import PrimFloat.
Local Open Scope float_scope.

Definition lat1 : float := 0x1.cb0218039f978p+5.     (* 57.37602236586366 *)
Definition lon1 : float := -0x1.0e8cf510ee3b8p+7.    (* -135.27530720623122 *)
Definition lat2 : float := -0x1.cb0218091999fp+5.    (* -57.37602240666751 *)
Definition lon2 : float := 0x1.65cc2baefe351p+5.     (* 44.72469269479064 *)

Definition sin (x : float) : float :=
  if x =? -0x1.005bc887bdb29p+0 then -0x1.af385bb33a5e9p-1
  else if x =? 0x1.921fb5408d1e4p+0 then 0x1.0000000000000p+0
  else nan.

Definition cos (x : float) : float :=
  if x =? 0x1.005bc886362ebp+0 then 0x1.1407f7ed98b5ap-1
  else if x =? -0x1.005bc88945365p+0 then 0x1.1407f7e871bb6p-1
  else nan.

Definition pow (x y : float) : float :=
  if (x =? -0x1.af385bb33a5e9p-1) && (y =? 2) then 0x1.6b2f6896dee67p-1
  else if (x =? 1) && (y =? 2) then 1
  else nan.

Definition asin (x : float) : float :=
  if x =? 1 then 0x1.921fb54442d18p+0 else nan.

End Glibc.

(** ** app.py: the reading of the weather score *)

Definition interpretar_clima (score : Z) : string :=
  if (30 <=? score)%Z then
    "🌞 Muy buen tiempo (sin lluvia significativa)"%string
  else if (20 <=? score)%Z then "🌤 Buen tiempo (con nubosidad)"%string
  else if (10 <=? score)%Z then "🌥 Tiempo regular (precaución)"%string
  else "🌧 Mal tiempo (lluvia o temperaturas adversas)"%string.

(** An hour one can run in: no heavy rain and between 5 and 28 degrees. *)
Definition runnable_hour (tp : Q * Q) : bool :=
  negb (Qgtb (snd tp) 2) && Qle_bool 5 (fst tp) && Qle_bool (fst tp) 28.

(** ** consultas_parques.py: the export and the console

    The console is modelled by the lines still to be read from standard
    input.  [input()] on an exhausted input raises [EOFError]; inside the two
    prompting loops the bare [except] swallows it and the loop goes on for
    ever, which is the outcome [Hangs]. *)

Inductive cell : Type :=
| Str (s : string)
| Float (q : Q)
| Int (z : Z)
| Day (d : date)        (* [target_date.isoformat()] *)
| NoneCell.

(** A row handed to the writer: the items of a dictionary, in order. *)
Definition rowdict : Type := list (string * cell).

Record csv_file : Type := {
  header : list string;
  records : list (list cell)
}.

Definition optional {A : Type} (f : A -> cell) (x : option A) : cell :=
  match x with
  | Some a => f a
  | None => NoneCell
  end.

(** The items of the dictionary [candidato], in insertion order. *)
Definition items (c : candidate) : rowdict :=
  [ ("day", Day (day c));
    ("user_lat", Float (user_lat c));
    ("user_lon", Float (user_lon c));
    ("name", Str (name c));
    ("address", optional Str (address c));
    ("location_lat", Float (location_lat c));
    ("location_lon", Float (location_lon c));
    ("distance_km", Float (distance_km c));
    ("route_minutes", optional Float (route_minutes c));
    ("elevation", optional Float (elevation c));
    ("elevation_category", Str (elevation_category c));
    ("weather_score", Int (weather_score c));
    ("final_score", Float (final_score c)) ]%string.

(** [csv.DictWriter._dict_to_list], with the defaults [restval = ""] and
    [extrasaction = "raise"]. *)
Definition dict_to_list (fieldnames : list string) (row : rowdict)
  : outcome (list cell) :=
  if forallb (fun k => existsb (String.eqb k) fieldnames) (map fst row)
  then Ok (map (fun key =>
                  match find (fun kv => String.eqb (fst kv) key) row with
                  | Some (_, v) => v
                  | None => Str ""
                  end)
               fieldnames)
  else Raise ValueError.

(** [writer.writerows(rows)]: the rows are written one by one, up to the
    first that cannot be. *)
Fixpoint writerows (fieldnames : list string) (rows : list rowdict)
    (written : list (list cell)) : outcome unit * list (list cell) :=
  match rows with
  | [] => (Ok tt, written)
  | row :: rest =>
      match dict_to_list fieldnames row with
      | Ok values => writerows fieldnames rest (written ++ [values])
      | Raise e => (Raise e, written)
      end
  end.

(** [export_table_to_csv(rows)], on the content of [datarun_dashboard.csv]
    ([None] while the file does not exist). *)
Definition export_table_to_csv (rows : list rowdict) (file : option csv_file)
  : outcome unit * option csv_file :=
  match rows with
  | [] => (Ok tt, file)
  | first :: _ =>
      let headers := map fst first in
      let '(r, written) := writerows headers rows [] in
      (r, Some {| header := headers; records := written |})
  end.

Inductive console (A : Type) : Type :=
| Returned (a : A) (rest : list string)
| Hangs
| EOFError.
Arguments Returned {A} a rest.
Arguments Hangs {A}.
Arguments EOFError {A}.

Definition DEFAULT_LAT : Q := 404168 # 10000.
Definition DEFAULT_LON : Q := - (37038 # 10000).

(** What the console prints last. *)
Inductive report : Type :=
| Recommendation (c : candidate)
| NoParks.

Section Console.

(** [int(line)] and [float(line)], [None] when they raise, and
    [line.strip().lower()]. *)
Variable py_int : string -> option Z.
Variable py_float : string -> option Q.
Variable strip_lower : string -> string.

Fixpoint elegir_dia (inputs : list string) : console Z :=
  match inputs with
  | [] => Hangs
  | line :: rest =>
      match py_int line with
      | Some n =>
          if ((1 <=? n) && (n <=? 8))%Z then Returned (n - 1)%Z rest
          else elegir_dia rest
      | None => elegir_dia rest
      end
  end.

(** A line that [elegir_dia] turns down. *)
Definition not_a_day (line : string) : Prop :=
  match py_int line with
  | Some n => ~ (1 <= n <= 8)%Z
  | None => True
  end.

(** The loop of [elegir_ubicacion] that asks for the two coordinates. *)
Fixpoint pedir_coordenadas (inputs : list string) : console (Q * Q) :=
  match inputs with
  | [] => Hangs
  | l1 :: rest =>
      match py_float l1 with
      | None => pedir_coordenadas rest
      | Some lat =>
          match rest with
          | [] => Hangs
          | l2 :: rest' =>
              match py_float l2 with
              | None => pedir_coordenadas rest'
              | Some lon => Returned (lat, lon) rest'
              end
          end
      end
  end.

(** The lines [pedir_coordenadas] uses up in attempts that fail: a line that
    is no float, or a line that is one followed by a line that is not. *)
Inductive turned_down : list string -> Prop :=
| no_attempt : turned_down []
| bad_latitude (l1 : string) (more : list string) :
    py_float l1 = None -> turned_down more -> turned_down (l1 :: more)
| bad_longitude (l1 l2 : string) (lat : Q) (more : list string) :
    py_float l1 = Some lat -> py_float l2 = None ->
    turned_down more -> turned_down (l1 :: l2 :: more).

Definition elegir_ubicacion (inputs : list string) : console (Q * Q) :=
  match inputs with
  | [] => EOFError
  | resp :: rest =>
      if String.eqb (strip_lower resp) "s" then pedir_coordenadas rest
      else Returned (DEFAULT_LAT, DEFAULT_LON) rest
  end.

Variable haversine_km : Q -> Q -> Q -> Q -> outcome Q.
Variable open_meteo : Q -> Q -> date -> response forecast.
Variable google_elevation : Q -> Q -> response (list Q).
Variable google_directions : Q -> Q -> Q -> Q -> response (list (list Z)).
Variable parks_col : list park.
Variable today : date.

(** The script: the two prompts, the query with the default radius of 15 km,
    the export and the report.  It yields the requests issued, the content
    of the dashboard file afterwards and the report, or the exception that
    ended the script. *)
Definition main (inputs : list string) (file : option csv_file)
  : console (list call * option csv_file * outcome report) :=
  match elegir_dia inputs with
  | Hangs => Hangs
  | EOFError => EOFError
  | Returned day_offset rest =>
      match elegir_ubicacion rest with
      | Hangs => Hangs
      | EOFError => EOFError
      | Returned (ulat, ulon) rest' =>
          match best_park_for_day haversine_km open_meteo google_elevation
                  google_directions parks_col today ulat ulon day_offset 15 []
          with
          | (Raise e, log) => Returned (log, file, Raise e) rest'
          | (Ok (mejor, candidatos), log) =>
              match export_table_to_csv (map items candidatos) file with
              | (Raise e, file') => Returned (log, file', Raise e) rest'
              | (Ok _, file') =>
                  Returned (log, file',
                            Ok match mejor with
                               | Some c => Recommendation c
                               | None => NoParks
                               end) rest'
              end
          end
      end
  end.

End Console.

(** ** etl_parques.py

    A JSON value as Python holds it once parsed; the members of an object are
    the items of the dictionary, with distinct keys.  The catalogue answers
    with an object whose "@graph", when there is one, is an array.  MongoDB
    is modelled by the documents and the indexes of the [parks] collection,
    and its operations are taken to succeed; the [_id] that [insert_many]
    gives to each document is left out. *)

#[warnings="-register-all"]
Inductive json : Type :=
| JNull
| JBool (b : bool)
| JNumber (q : Q)
| JString (s : string)
| JArray (elements : list json)
| JObject (members : list (string * json)).

Inductive etl_exn : Type :=
| Fetch (e : exn)       (* raised by the request of [extract_parks] *)
| AttributeError        (* [.get] on a value that is not a dictionary *)
| OverflowError.        (* [float] on an integer too large for a float *)

Inductive attempt (A : Type) : Type :=
| Done (a : A)
| Failed (e : etl_exn).
Arguments Done {A} a.
Arguments Failed {A} e.

(** [d.get(key, default)] *)
Definition dict_get (d : json) (key : string) (default : json)
  : attempt json :=
  match d with
  | JObject members =>
      match find (fun kv => String.eqb (fst kv) key) members with
      | Some (_, v) => Done v
      | None => Done default
      end
  | _ => Failed AttributeError
  end.

(** The truth value of a parsed JSON value. *)
Definition json_truthy (v : json) : bool :=
  match v with
  | JNull => false
  | JBool b => b
  | JNumber q => negb (Qeq_bool q 0)
  | JString s => negb (String.eqb s "")
  | JArray elements => match elements with [] => false | _ => true end
  | JObject members => match members with [] => false | _ => true end
  end.

(** A value without [.get]. *)
Definition not_object (v : json) : Prop :=
  forall members, v <> JObject members.

(** The least magnitude of an integer that [float] cannot convert: half
    way between the greatest float and [2 ^ 1024]. *)
Definition DOUBLE_OVERFLOW : Q := inject_Z (2 ^ 1024 - 2 ^ 970).

Definition is_none (v : json) : bool :=
  match v with
  | JNull => true
  | _ => false
  end.

Record park_doc : Type := {
  doc_name : json;                    (* "name" *)
  doc_address : json;                 (* "address" *)
  doc_location_type : string;         (* "location"."type" *)
  doc_coordinates : Q * Q;            (* "location"."coordinates": lon, lat *)
  doc_source : string;                (* "source" *)
  doc_equipment : option json;        (* "equipment", when the key is set *)
  doc_schedule : option json          (* "schedule", when the key is set *)
}.

Record catalogue : Type := {
  graph : option (list json)          (* data.get("@graph") *)
}.

Definition MAX_PARKS : nat := 200.

(** [extract_parks], from the answer of the catalogue. *)
Definition extract_parks (resp : response catalogue) : attempt (list json) :=
  match fetch resp with
  | Raise e => Failed (Fetch e)
  | Ok data =>
      let parks_raw := match graph data with Some l => l | None => [] end in
      Done (firstn MAX_PARKS parks_raw)
  end.

Record collection : Type := {
  documents : list park_doc;
  indexes : list (string * string)
}.

(** [col.drop()] *)
Definition drop (col : collection) : collection :=
  {| documents := []; indexes := [] |}.

(** [col.insert_many(docs)] *)
Definition insert_many (docs : list park_doc) (col : collection)
  : collection :=
  {| documents := documents col ++ docs; indexes := indexes col |}.

(** [col.create_index([(field, kind)])] *)
Definition create_index (field kind : string) (col : collection)
  : collection :=
  {| documents := documents col;
     indexes :=
       if existsb (fun ix => String.eqb (fst ix) field
                             && String.eqb (snd ix) kind) (indexes col)
       then indexes col
       else indexes col ++ [(field, kind)] |}.

Definition load_parks_to_mongo (parks_docs : list park_doc)
    (drop_before : bool) (col : collection) : collection :=
  let col := if drop_before then drop col else col in
  match parks_docs with
  | [] => col
  | _ :: _ => create_index "location" "2dsphere" (insert_many parks_docs col)
  end.

Section Transform.

(** [float] on a string, [None] when it raises [ValueError]. *)
Variable py_float : string -> option Q.

(** [float(v)] under [except (TypeError, ValueError)]: the float, or [None]
    when one of the two exceptions is caught.  A number of magnitude
    [DOUBLE_OVERFLOW] or more can only be an integer (a float is smaller),
    and [float] of it raises [OverflowError], which the handler lets
    through. *)
Definition to_float (v : json) : attempt (option Q) :=
  match v with
  | JNumber q =>
      if Qle_bool DOUBLE_OVERFLOW (Qabs q) then Failed OverflowError
      else Done (Some q)
  | JBool b => Done (Some (if b then 1 else 0))
  | JString s => Done (py_float s)
  | JNull | JArray _ | JObject _ => Done None
  end.

Definition transform_park (raw : json) : attempt (option park_doc) :=
  match dict_get raw "title" JNull with
  | Failed e => Failed e
  | Done name =>
  match dict_get raw "address" (JObject []) with
  | Failed e => Failed e
  | Done address_info =>
  match dict_get address_info "street-address" JNull with
  | Failed e => Failed e
  | Done address =>
  match dict_get raw "location" (JObject []) with
  | Failed e => Failed e
  | Done location_info =>
  match dict_get location_info "latitude" JNull with
  | Failed e => Failed e
  | Done lat =>
  match dict_get location_info "longitude" JNull with
  | Failed e => Failed e
  | Done lon =>
      if is_none lat || is_none lon then Done None
      else
        match to_float lat with
        | Failed e => Failed e
        | Done None => Done None
        | Done (Some lat) =>
            match to_float lon with
            | Failed e => Failed e
            | Done None => Done None
            | Done (Some lon) =>
                match dict_get raw "equipment" JNull,
                      dict_get raw "schedule" JNull with
                | Done equipment, Done schedule =>
                    Done (Some
                      {| doc_name := name;
                         doc_address := address;
                         doc_location_type := "Point";
                         doc_coordinates := (lon, lat);
                         doc_source := "datos.madrid.es";
                         doc_equipment :=
                           if json_truthy equipment then Some equipment
                           else None;
                         doc_schedule :=
                           if json_truthy schedule then Some schedule
                           else None |})
                | Failed e, _ | _, Failed e => Failed e
                end
            end
        end
  end end end end end end.

(** The loop of [transform_parks], with its accumulator [transformed]. *)
Fixpoint transform_loop (parks_raw : list json) (transformed : list park_doc)
  : attempt (list park_doc) :=
  match parks_raw with
  | [] => Done transformed
  | raw :: rest =>
      match transform_park raw with
      | Failed e => Failed e
      | Done None => transform_loop rest transformed
      | Done (Some doc) => transform_loop rest (transformed ++ [doc])
      end
  end.

Definition transform_parks (parks_raw : list json)
  : attempt (list park_doc) :=
  transform_loop parks_raw [].

(** What one raw record leaves in the result: its document, or nothing. *)
Definition kept (raw : json) : list park_doc :=
  match transform_park raw with
  | Done (Some doc) => [doc]
  | _ => []
  end.

(** [run_etl_parks]: the collection afterwards, and the exception if one
    ended the job. *)
Definition run_etl_parks (resp : response catalogue) (col : collection)
  : collection * option etl_exn :=
  match extract_parks resp with
  | Failed e => (col, Some e)
  | Done parks_raw =>
      match transform_parks parks_raw with
      | Failed e => (col, Some e)
      | Done parks_docs => (load_parks_to_mongo parks_docs true col, None)
      end
  end.

End Transform.

(** ** Sample records of the catalogue *)

Module Catalogue.

Definition retiro : json :=
  JObject
    [ ("title", JString "Parque de El Retiro");
      ("address",
       JObject [("street-address", JString "Plaza de la Independencia, 7")]);
      ("location",
       JObject [("latitude", JNumber (404153 # 10000));
                ("longitude", JNumber (- (36845 # 10000)))]);
      ("schedule", JString "6:00-24:00");
      ("equipment", JArray []) ]%string.

(** Coordinates given as text. *)
Definition oeste : json :=
  JObject
    [ ("title", JString "Parque del Oeste");
      ("location",
       JObject [("latitude", JString "40"); ("longitude", JString "3")]) ]%string.

(** No "location" at all. *)
Definition unplaced : json :=
  JObject [ ("title", JString "Jardin sin coordenadas") ]%string.

(** A "location" that is null. *)
Definition null_location : json :=
  JObject [ ("title", JString "Jardin"); ("location", JNull) ]%string.

(** A latitude written as an integer of 401 digits. *)
Definition huge_latitude : json :=
  JObject
    [ ("title", JString "Jardin");
      ("location",
       JObject [("latitude", JNumber (inject_Z (10 ^ 400)));
                ("longitude", JNumber (- (37 # 10)))]) ]%string.

Definition old_collection : collection :=
  {| documents :=
       [ {| doc_name := JString "Parque antiguo";
            doc_address := JNull;
            doc_location_type := "Point";
            doc_coordinates := (- (37 # 10), 404 # 10);
            doc_source := "datos.madrid.es";
            doc_equipment := None;
            doc_schedule := None |} ];
     indexes := [("location", "2dsphere")]%string |}.

End Catalogue.

(** ** A keyboard for the sample query

    Stand-ins for [int], [float] and [strip().lower()] on the lines typed in
    the examples: plain runs of decimal digits, typed without blanks and in
    lower case. *)

Module Keyboard.

Definition digit (a : ascii) : option Z :=
  let n := nat_of_ascii a in
  if ((48 <=? n) && (n <=? 57))%nat then Some (Z.of_nat (n - 48)) else None.

Fixpoint digits (s : string) (acc : Z) : option Z :=
  match s with
  | EmptyString => Some acc
  | String a rest =>
      match digit a with
      | Some d => digits rest (10 * acc + d)%Z
      | None => None
      end
  end.

Definition py_int (s : string) : option Z :=
  match s with
  | EmptyString => None
  | _ => digits s 0%Z
  end.

Definition py_float (s : string) : option Q := option_map inject_Z (py_int s).

Definition strip_lower (s : string) : string := s.

End Keyboard.

(** ** Providers at fault, for the sample query *)

Module Faults.

(** The forecast provider unreachable. *)
Definition forecast_down (lat lon : Q) (d : date) : response forecast :=
  TransportFailure.

(** A directions answer whose first route has no legs. *)
Definition directions_without_legs (lat1 lon1 lat2 lon2 : Q)
  : response (list (list Z)) :=
  Json [[]].

End Faults.

(** * Properties *)

(** ** Comparisons on [Q] *)

Lemma Qltb_lt (x y : Q) : Qltb x y = true <-> x < y.
Proof.
  unfold Qltb. rewrite negb_true_iff. split; intros H.
  - apply Qnot_le_lt. intros Hle. apply Qle_bool_iff in Hle. congruence.
  - destruct (Qle_bool y x) eqn:E; trivial.
    apply Qle_bool_iff in E. apply Qlt_not_le in H. contradiction.
Qed.

Lemma Qltb_ge (x y : Q) : Qltb x y = false <-> y <= x.
Proof.
  unfold Qltb. rewrite negb_false_iff. apply Qle_bool_iff.
Qed.

Lemma Qle_bool_gt (x y : Q) : Qle_bool x y = false <-> y < x.
Proof.
  rewrite <- Qltb_lt. unfold Qltb. now rewrite negb_true_iff.
Qed.

Lemma Qgtb_gt (x y : Q) : Qgtb x y = true <-> y < x.
Proof. apply Qltb_lt. Qed.

Lemma Qgtb_le (x y : Q) : Qgtb x y = false <-> x <= y.
Proof. apply Qltb_ge. Qed.

(** Turns the boolean tests in the context into order facts. *)
Ltac order_facts :=
  repeat match goal with
  | H : Qle_bool _ _ = true |- _ => apply Qle_bool_iff in H
  | H : Qle_bool _ _ = false |- _ => apply Qle_bool_gt in H
  | H : Qltb _ _ = true |- _ => apply Qltb_lt in H
  | H : Qltb _ _ = false |- _ => apply Qltb_ge in H
  | H : Qgtb _ _ = true |- _ => apply Qgtb_gt in H
  | H : Qgtb _ _ = false |- _ => apply Qgtb_le in H
  end.

(** ** The weather scorer *)

Lemma hour_step_points (acc : Z) (t p : Q) :
  hour_step acc (t, p) = (acc + hour_points t p)%Z.
Proof.
  unfold hour_step, hour_points.
  destruct (Qgtb p 2) eqn:Hp;
  destruct (Qle_bool 10 t) eqn:H10; destruct (Qle_bool t 24) eqn:H24;
  destruct (Qle_bool 5 t) eqn:H5; destruct (Qltb t 10) eqn:H10';
  destruct (Qltb 24 t) eqn:H24'; destruct (Qle_bool t 28) eqn:H28;
  order_facts;
  destruct (Qlt_le_dec 2 p); destruct (Qlt_le_dec t 10);
  destruct (Qlt_le_dec t 5); destruct (Qlt_le_dec 24 t);
  destruct (Qlt_le_dec 28 t); simpl; try lia; exfalso; Lqa.lra.
Qed.

Lemma fold_hour_step (l : list (Q * Q)) (acc : Z) :
  fold_left hour_step l acc
  = (acc + fold_right Z.add 0%Z (map points_of l))%Z.
Proof.
  revert acc.
  induction l as [|[t p] l IH]; intros acc; cbn [fold_left map fold_right].
  - lia.
  - rewrite IH, hour_step_points. unfold points_of at 2.
    cbn [fst snd]. lia.
Qed.

Lemma hours_sum_combine (temps precs : list Q) :
  List.length temps = List.length precs ->
  hours_sum temps precs
  = fold_right Z.add 0%Z (map points_of (combine temps precs)).
Proof.
  unfold hours_sum. revert precs.
  induction temps as [|t temps IH]; intros [|p precs] Hlen;
    simpl in Hlen; try discriminate; trivial.
  injection Hlen as Hlen. simpl.
  rewrite <- seq_shift, map_map. simpl. now rewrite IH.
Qed.

Lemma hour_points_range (t p : Q) : (0 <= hour_points t p <= 2)%Z.
Proof.
  unfold hour_points.
  destruct (Qlt_le_dec 2 p); destruct (Qlt_le_dec t 10);
  destruct (Qlt_le_dec t 5); destruct (Qlt_le_dec 24 t);
  destruct (Qlt_le_dec 28 t); lia.
Qed.

Lemma points_sum_range (l : list (Q * Q)) :
  (0 <= fold_right Z.add 0%Z (map points_of l)
     <= 2 * Z.of_nat (List.length l))%Z.
Proof.
  induction l as [|tp l IH]; simpl List.length; simpl map; simpl fold_right.
  - lia.
  - pose proof (hour_points_range (fst tp) (snd tp)) as H.
    unfold points_of at 1 3. lia.
Qed.

(** C4: on two series of equal length the weather score is the sum, over
    the hours, of the contribution the specification gives for the hour (0
    under a precipitation above 2 mm, otherwise 2, 1 or 0 by the temperature
    band), and it lies between 0 and twice the number of hours. *)
Theorem hourly_score_is_sum_of_hour_points (temps precs : list Q) :
  List.length temps = List.length precs ->
  hourly_score temps precs = hours_sum temps precs /\
  (0 <= hourly_score temps precs <= 2 * Z.of_nat (List.length temps))%Z.
Proof.
  intros Hlen. unfold hourly_score. rewrite fold_hour_step.
  rewrite hours_sum_combine by assumption.
  split; [lia|].
  pose proof (points_sum_range (combine temps precs)) as H.
  rewrite length_combine, <- Hlen, Nat.min_id in H. lia.
Qed.

Lemma hourly_score_is_sum_of_hour_points_witness :
  let temps := [12; 26; 18; 3] in
  let precs := [0; 1 # 2; 3; 0] in
  hourly_score temps precs = 3%Z /\
  hourly_score temps precs = hours_sum temps precs /\
  (0 <= hourly_score temps precs <= 2 * Z.of_nat (List.length temps))%Z.
Proof.
  split; [reflexivity|].
  apply (hourly_score_is_sum_of_hour_points [12; 26; 18; 3] [0; 1 # 2; 3; 0]).
  reflexivity.
Defined.

(** [zip] looks at no hour beyond the end of the shorter series. *)
Lemma hourly_score_firstn (temps precs : list Q) :
  let n := Nat.min (List.length temps) (List.length precs) in
  hourly_score temps precs = hourly_score (firstn n temps) (firstn n precs).
Proof.
  intros n. unfold hourly_score.
  rewrite <- combine_firstn. subst n.
  rewrite <- length_combine. now rewrite firstn_all.
Qed.

(** C3, as the code has it: series of unequal length raise nothing; the
    scorer answers with the score of the hours both series cover, that is
    of the two series cut to the length of the shorter one. *)
Theorem weather_score_of_unequal_series
    (open_meteo : Q -> Q -> date -> response forecast)
    (lat lon : Q) (d : date) (data : forecast) (log : list call) :
  open_meteo lat lon d = Json data ->
  let n := Nat.min (List.length (temperature_2m data))
                   (List.length (precipitation data)) in
  get_weather_score_for_date open_meteo lat lon d log
  = (Ok (hourly_score (firstn n (temperature_2m data))
                      (firstn n (precipitation data))),
     log ++ [OpenMeteo lat lon d]).
Proof.
  intros Hresp n. unfold get_weather_score_for_date, bind, request, ret.
  rewrite Hresp. cbn [fetch]. now rewrite hourly_score_firstn.
Qed.

Lemma weather_score_of_unequal_series_witness :
  let data := {| temperature_2m := [15; 15; 7]; precipitation := [0] |} in
  get_weather_score_for_date (fun _ _ _ => Json data)
    Sample.sol_lat Sample.sol_lon Sample.today []
  = (Ok (hourly_score [15] [0]),
     [OpenMeteo Sample.sol_lat Sample.sol_lon Sample.today]).
Proof.
  exact (weather_score_of_unequal_series
           (fun _ _ _ =>
              Json {| temperature_2m := [15; 15; 7]; precipitation := [0] |})
           Sample.sol_lat Sample.sol_lon Sample.today _ [] eq_refl).
Defined.

(** C3 fails: three temperatures against one precipitation value are scored
    (2 points, for the one hour both series cover) and nothing is raised. *)
Lemma unequal_series_raise_nothing :
  let data := {| temperature_2m := [15; 15; 7]; precipitation := [0] |} in
  List.length (temperature_2m data) <> List.length (precipitation data) /\
  fst (get_weather_score_for_date (fun _ _ _ => Json data)
         Sample.sol_lat Sample.sol_lon Sample.today [])
  = Ok 2%Z.
Proof.
  split; [discriminate | reflexivity].
Qed.

(** ** The candidate scorer *)

Lemma score_no_route (ws : Z) (dist : Q) :
  score ws dist None = inject_Z ws - dist.
Proof. reflexivity. Qed.

(** C5: the combined score is the weather score, minus the distance, minus
    a tenth of the route minutes when there is a route; 20, 5 km and 30
    minutes give 12, which is also what the candidate shows as its
    [final_score], the score rounded to two decimals. *)
Theorem score_is_weather_minus_distance_minus_route :
  (forall (ws : Z) (dist : Q) (route_min : option Q),
     score ws dist route_min
     == inject_Z ws - dist
        - match route_min with Some m => m / 10 | None => 0 end) /\
  score 20 5 (Some 30) == 12 /\
  (forall d ulat ulon p lat lon dist elev route_min ws,
     final_score (candidato d ulat ulon p lat lon dist elev route_min ws)
     = py_round (score ws dist route_min) 2) /\
  py_round (score 20 5 (Some 30)) 2 == 12.
Proof.
  repeat split; try reflexivity.
  intros ws dist [m|]; unfold score, truthy, float_of.
  - destruct (Qeq_bool m 0) eqn:E; cbn [negb].
    + apply Qeq_bool_iff in E. rewrite E. field.
    + reflexivity.
  - ring.
Qed.

(** ** Rounding *)

Lemma round_half_even_integer (k : Z) : round_half_even (inject_Z k) = k.
Proof.
  unfold round_half_even. rewrite Qfloor_Z.
  assert (H : Qcompare (inject_Z k - inject_Z k) (1 # 2) = Lt)
    by (rewrite <- Qlt_alt; Lqa.lra).
  now rewrite H.
Qed.

Lemma round_half_even_compat (x y : Q) :
  x == y -> round_half_even x = round_half_even y.
Proof.
  intros H. unfold round_half_even.
  rewrite (Qfloor_comp x y H).
  assert (Hc : x - inject_Z (Qfloor y) == y - inject_Z (Qfloor y))
    by now rewrite H.
  now rewrite (Qcompare_comp _ _ Hc (1 # 2) (1 # 2) (Qeq_refl _)).
Qed.

Lemma scale_positive (n : nat) : 0 < inject_Z (10 ^ Z.of_nat n).
Proof.
  change 0 with (inject_Z 0). rewrite <- Zlt_Qlt.
  apply Z.pow_pos_nonneg; lia.
Qed.

(** A value already rounded to [n] decimals is left as it is. *)
Lemma py_round_idempotent (x : Q) (n : nat) :
  py_round (py_round x n) n = py_round x n.
Proof.
  unfold py_round at 1. fold (py_round x n).
  set (scale := inject_Z (10 ^ Z.of_nat n)).
  assert (Hs : ~ scale == 0).
  { pose proof (scale_positive n). subst scale. Lqa.lra. }
  assert (H : py_round x n * scale
              == inject_Z (round_half_even (x * scale))).
  { unfold py_round. fold scale. field. exact Hs. }
  rewrite (round_half_even_compat _ _ H), round_half_even_integer.
  reflexivity.
Qed.

(** ** The monad *)

Lemma bind_ok_inv {A B : Type} (m : M A) (f : A -> M B)
    (log log' : list call) (b : B) :
  bind m f log = (Ok b, log') ->
  exists a log1, m log = (Ok a, log1) /\ f a log1 = (Ok b, log').
Proof.
  unfold bind. destruct (m log) as [[a|e] log1]; intros H.
  - now exists a, log1.
  - discriminate.
Qed.

Lemma request_ok_inv {A : Type} (c : call) (r : response A)
    (log log' : list call) (a : A) :
  request c r log = (Ok a, log') -> r = Json a /\ log' = log ++ [c].
Proof.
  unfold request. destruct r; cbn [fetch]; intros H; inversion H.
  now split.
Qed.

(** ** The best-candidate fold *)

(** Folding [update_mejor] over a non-empty list yields its first element of
    greatest [final_score]. *)
Lemma fold_update_mejor_first_max (l : list candidate) :
  l <> [] ->
  exists i b,
    fold_left update_mejor l None = Some b /\
    nth_error l i = Some b /\
    (forall j c, nth_error l j = Some c -> final_score c <= final_score b) /\
    (forall j c, (j < i)%nat -> nth_error l j = Some c ->
                 final_score c < final_score b).
Proof.
  induction l as [|x l IH] using rev_ind; [congruence|]. intros _.
  rewrite fold_left_app. cbn [fold_left].
  destruct l as [|y l'].
  - exists 0%nat, x. cbn. repeat split; trivial.
    + intros [|[|j]] c Hc; cbn in Hc; inversion Hc. apply Qle_refl.
    + intros j c Hj. lia.
  - destruct IH as (i & b & Hfold & Hi & Hmax & Hfirst); [discriminate|].
    set (l := y :: l') in *. rewrite Hfold. cbn [update_mejor].
    assert (Hlen : (i < List.length l)%nat)
      by (apply nth_error_Some; congruence).
    destruct (Qgtb (final_score x) (final_score b)) eqn:E; order_facts.
    + exists (List.length l), x. repeat split.
      * rewrite nth_error_app2, Nat.sub_diag by lia. reflexivity.
      * intros j c Hc.
        destruct (Nat.lt_ge_cases j (List.length l)) as [Hj|Hj].
        -- rewrite nth_error_app1 in Hc by assumption.
           apply Qlt_le_weak. eapply Qle_lt_trans; [eapply Hmax; eauto|].
           assumption.
        -- rewrite nth_error_app2 in Hc by assumption.
           destruct (j - List.length l)%nat as [|[|k]]; cbn in Hc;
             inversion Hc. apply Qle_refl.
      * intros j c Hj Hc. rewrite nth_error_app1 in Hc by assumption.
        eapply Qle_lt_trans; [eapply Hmax; eauto|]. assumption.
    + exists i, b. repeat split.
      * rewrite nth_error_app1 by assumption. assumption.
      * intros j c Hc.
        destruct (Nat.lt_ge_cases j (List.length l)) as [Hj|Hj].
        -- rewrite nth_error_app1 in Hc by assumption. eauto.
        -- rewrite nth_error_app2 in Hc by assumption.
           destruct (j - List.length l)%nat as [|[|k]]; cbn in Hc;
             inversion Hc. subst c. assumption.
      * intros j c Hj Hc. rewrite nth_error_app1 in Hc by lia. eauto.
Qed.

(** ** The loop over the parks *)

Section PipelineFacts.

Variable haversine_km : Q -> Q -> Q -> Q -> outcome Q.
Variable open_meteo : Q -> Q -> date -> response forecast.
Variable google_elevation : Q -> Q -> response (list Q).
Variable google_directions : Q -> Q -> Q -> Q -> response (list (list Z)).
Variable parks_col : list park.
Variable today : date.
Variables (ulat ulon : Q) (target_date : date) (max_distance_km : Q) (ws : Z).

Local Abbreviation process :=
  (process_park haversine_km google_elevation google_directions
                ulat ulon target_date max_distance_km ws).
Local Abbreviation loop :=
  (for_parks haversine_km google_elevation google_directions
             ulat ulon target_date max_distance_km ws).
Local Abbreviation near := (in_range haversine_km ulat ulon max_distance_km).
Local Abbreviation made :=
  (built haversine_km google_elevation google_directions
         ulat ulon target_date max_distance_km ws).
Local Abbreviation asked := (calls_of ulat ulon).

(** An iteration that ends normally either skipped a park out of range,
    asking nothing of the providers, or built the candidate of a park in
    range after one elevation and one route request. *)
Lemma process_park_ok (p : park) (log log' : list call)
    (r : option candidate) :
  process p log = (Ok r, log') ->
  (near p = false /\ r = None /\ log' = log) \/
  (near p = true /\ exists c, r = Some c /\ made p c /\
                                  log' = log ++ asked p).
Proof.
  unfold process_park, in_range, calls_of, built.
  destruct (park_coordinates p) as [lon lat] eqn:Hco. cbn [fst snd].
  intros H. apply bind_ok_inv in H as (dist & log1 & Hd & H).
  unfold lift in Hd. inversion Hd as [[Hdist Hlog]]. subst log1.
  rewrite Hdist. clear Hd.
  destruct (Qgtb dist max_distance_km) eqn:Hfar.
  - left. inversion H. auto.
  - right. split; [reflexivity|].
    apply bind_ok_inv in H as (elev & log1 & He & H).
    unfold get_elevation in He.
    apply bind_ok_inv in He as (results & log2 & Hreq & He).
    apply request_ok_inv in Hreq as [Hresults ->].
    inversion He; subst elev log1. clear He.
    apply bind_ok_inv in H as (route_min & log1 & Hr & H).
    unfold get_best_route in Hr.
    apply bind_ok_inv in Hr as (routes & log2 & Hreq & Hr).
    apply request_ok_inv in Hreq as [Hroutes ->].
    unfold lift in Hr. inversion Hr as [[Hmin Hlog1]]. subst log1.
    inversion H. subst.
    eexists. split; [reflexivity|]. split.
    + exists dist, results, routes, route_min. order_facts.
      repeat split; trivial.
    + now rewrite <- app_assoc.
Qed.

(** A loop that ends normally appended, in catalog order, the candidates of
    the parks in range, folded [update_mejor] over them, and issued the
    requests of those parks and no other. *)
Lemma for_parks_ok (parks : list park) :
  forall mejor candidatos log mejor' candidatos' log',
    loop parks mejor candidatos log = (Ok (mejor', candidatos'), log') ->
    exists new,
      candidatos' = candidatos ++ new /\
      mejor' = fold_left update_mejor new mejor /\
      Forall2 made (filter near parks) new /\
      log' = log ++ flat_map asked (filter near parks).
Proof.
  induction parks as [|p rest IH]; intros mejor cs log mejor' cs' log' H.
  - inversion H. exists []. cbn. rewrite !app_nil_r. auto.
  - cbn [for_parks] in H.
    apply bind_ok_inv in H as (r & log1 & Hp & H).
    apply process_park_ok in Hp
      as [(Hout & -> & ->) | (Hin & c & -> & Hb & ->)];
      apply IH in H as (new & -> & -> & Hall & ->); cbn [filter];
      rewrite ?Hout, ?Hin.
    + exists new. auto.
    + exists (c :: new). cbn [fold_left flat_map].
      rewrite <- !app_assoc. cbn [app]. repeat split; auto.
Qed.

(** The iteration returns for a park whose distance is computed and, when
    the park is in range, whose two lookups are answered. *)
Lemma process_park_returns (p : park) (log : list call) :
  (exists dist,
     haversine_km ulat ulon (snd (park_coordinates p))
                  (fst (park_coordinates p)) = Ok dist /\
     (dist <= max_distance_km ->
      exists results routes route_min,
        google_elevation (snd (park_coordinates p))
                         (fst (park_coordinates p)) = Json results /\
        google_directions ulat ulon (snd (park_coordinates p))
                          (fst (park_coordinates p)) = Json routes /\
        minutes_of_routes routes = Ok route_min)) ->
  exists r log', process p log = (Ok r, log').
Proof.
  unfold process_park.
  destruct (park_coordinates p) as [lon lat]. cbn [fst snd].
  intros (dist & Hd & Hnear).
  unfold bind at 1. unfold lift at 1. rewrite Hd.
  destruct (Qgtb dist max_distance_km) eqn:Hfar.
  - eexists _, _. reflexivity.
  - order_facts.
    destruct (Hnear Hfar) as (results & routes & route_min & He & Hr & Hm).
    unfold get_elevation, get_best_route, bind, request, lift, ret.
    rewrite He, Hr. cbn [fetch]. rewrite Hm. eexists _, _. reflexivity.
Qed.

(** The loop returns when every iteration does. *)
Lemma for_parks_returns (parks : list park) :
  (forall p log, In p parks -> exists r log', process p log = (Ok r, log')) ->
  forall mejor candidatos log,
  exists mejor' candidatos' log',
    loop parks mejor candidatos log = (Ok (mejor', candidatos'), log').
Proof.
  induction parks as [|p rest IH]; intros Hall mejor cs log.
  - eexists _, _, _. reflexivity.
  - cbn [for_parks]. unfold bind at 1.
    destruct (Hall p log (or_introl eq_refl)) as (r & log1 & ->).
    assert (Hrest : forall q lg, In q rest ->
                      exists r' lg', process q lg = (Ok r', lg'))
      by (intros q lg Hq; apply Hall; now right).
    destruct r as [c|]; apply IH; assumption.
Qed.

(** The iteration for an answered park returns, having asked for the park
    what [calls_of] lists if the park is within range and nothing if not. *)
Lemma process_park_answered (p : park) (log : list call) :
  answered haversine_km google_elevation google_directions ulat ulon
           max_distance_km p ->
  exists r,
    process p log = (Ok r, log ++ if near p then asked p else []).
Proof.
  intros Ha.
  destruct (process_park_returns p log Ha) as (r & log' & Hp).
  exists r. rewrite Hp.
  apply process_park_ok in Hp as [(-> & _ & ->) | (-> & c & _ & _ & ->)].
  - now rewrite app_nil_r.
  - reflexivity.
Qed.

(** The loop passes over a stretch of answered parks and goes on with what
    follows it. *)
Lemma for_parks_prefix (before : list park) :
  (forall q, In q before ->
     answered haversine_km google_elevation google_directions ulat ulon
              max_distance_km q) ->
  forall mejor candidatos log,
  exists mejor' candidatos',
    forall rest,
      loop (before ++ rest) mejor candidatos log
      = loop rest mejor' candidatos'
             (log ++ flat_map asked (filter near before)).
Proof.
  induction before as [|q before IH]; intros Hall mejor cs log.
  - exists mejor, cs. intros rest. cbn. now rewrite app_nil_r.
  - destruct (process_park_answered q log (Hall q (or_introl eq_refl)))
      as (r & Hq).
    assert (Hrest : forall q', In q' before ->
              answered haversine_km google_elevation google_directions
                       ulat ulon max_distance_km q')
      by (intros q' Hq'; apply Hall; now right).
    destruct r as [c|].
    + destruct (IH Hrest (update_mejor mejor c) (cs ++ [c])
                   (log ++ if near q then asked q else []))
        as (m' & cs' & Hgo).
      exists m', cs'. intros rest. cbn [app for_parks]. unfold bind at 1.
      rewrite Hq, Hgo. cbn [filter].
      destruct (near q); cbn [flat_map];
        now rewrite <- ?app_assoc, ?app_nil_r.
    + destruct (IH Hrest mejor cs (log ++ if near q then asked q else []))
        as (m' & cs' & Hgo).
      exists m', cs'. intros rest. cbn [app for_parks]. unfold bind at 1.
      rewrite Hq, Hgo. cbn [filter].
      destruct (near q); cbn [flat_map];
        now rewrite <- ?app_assoc, ?app_nil_r.
Qed.

(** The iteration for a park within range raises the exception of its first
    request that fails, right after that request. *)
Lemma process_park_raises (p : park) (e : exn) (log : list call) :
  near p = true ->
  (fetch (google_elevation (snd (park_coordinates p))
                           (fst (park_coordinates p))) = Raise e ->
   process p log
   = (Raise e,
      log ++ [GoogleElevation (snd (park_coordinates p))
                              (fst (park_coordinates p))])) /\
  (forall results,
     google_elevation (snd (park_coordinates p)) (fst (park_coordinates p))
     = Json results ->
     fetch (google_directions ulat ulon (snd (park_coordinates p))
                              (fst (park_coordinates p))) = Raise e ->
     process p log
     = (Raise e,
        log ++ [GoogleElevation (snd (park_coordinates p))
                                (fst (park_coordinates p));
                GoogleDirections ulat ulon (snd (park_coordinates p))
                                 (fst (park_coordinates p))])).
Proof.
  unfold in_range, process_park.
  destruct (park_coordinates p) as [lon lat]. cbn [fst snd].
  destruct (haversine_km ulat ulon lat lon) as [dist|e0] eqn:Hd;
    [|discriminate].
  intros Hnear. apply negb_true_iff in Hnear.
  split.
  - intros He. unfold bind at 1. unfold lift at 1. rewrite Hnear.
    unfold get_elevation, bind, request. now rewrite He.
  - intros results He Hr. unfold bind at 1. unfold lift at 1.
    rewrite Hnear.
    unfold get_elevation, get_best_route, bind, request, ret.
    rewrite He, Hr. cbn [fetch]. now rewrite <- app_assoc.
Qed.

(** A ranking run that returns: the forecast was delivered, and the loop ran
    over the whole catalog from [mejor = None] and [candidatos = []]. *)
Lemma best_park_for_day_ok (day_offset : Z) (log log' : list call)
    (mejor : option candidate) (candidatos : list candidate) :
  best_park_for_day haversine_km open_meteo google_elevation
    google_directions parks_col today ulat ulon day_offset max_distance_km log
  = (Ok (mejor, candidatos), log') ->
  exists data,
    open_meteo ulat ulon (today + day_offset)%Z = Json data /\
    for_parks haversine_km google_elevation google_directions
      ulat ulon (today + day_offset)%Z max_distance_km
      (hourly_score (temperature_2m data) (precipitation data))
      parks_col None [] (log ++ [OpenMeteo ulat ulon (today + day_offset)%Z])
    = (Ok (mejor, candidatos), log').
Proof.
  unfold best_park_for_day. intros H.
  apply bind_ok_inv in H as (w & log1 & Hw & H).
  unfold get_weather_score_for_date in Hw.
  apply bind_ok_inv in Hw as (data & log2 & Hreq & Hw).
  apply request_ok_inv in Hreq as [Hdata ->].
  inversion Hw. subst. now exists data.
Qed.

End PipelineFacts.

Lemma Forall2_In_left {A B : Type} (R : A -> B -> Prop) (l : list A)
    (l' : list B) (x : A) :
  Forall2 R l l' -> In x l -> exists y, In y l' /\ R x y.
Proof.
  induction 1 as [|a b l l' Hab _ IH]; intros Hin; [contradiction|].
  destruct Hin as [->|Hin].
  - exists b. split; [now left | assumption].
  - destruct (IH Hin) as (y & Hy & HR). exists y. split; [now right | assumption].
Qed.

Lemma Forall2_In_right {A B : Type} (R : A -> B -> Prop) (l : list A)
    (l' : list B) (y : B) :
  Forall2 R l l' -> In y l' -> exists x, In x l /\ R x y.
Proof.
  induction 1 as [|a b l l' Hab _ IH]; intros Hin; [contradiction|].
  destruct Hin as [->|Hin].
  - exists a. split; [now left | assumption].
  - destruct (IH Hin) as (x & Hx & HR). exists x. split; [now right | assumption].
Qed.

(** ** The ranking run *)

Section Ranking.

Variable haversine_km : Q -> Q -> Q -> Q -> outcome Q.
Variable open_meteo : Q -> Q -> date -> response forecast.
Variable google_elevation : Q -> Q -> response (list Q).
Variable google_directions : Q -> Q -> Q -> Q -> response (list (list Z)).
Variable parks_col : list park.
Variable today : date.
Variables (ulat ulon : Q) (day_offset : Z) (max_distance_km : Q).

Local Abbreviation run :=
  (best_park_for_day haversine_km open_meteo google_elevation
     google_directions parks_col today ulat ulon day_offset max_distance_km).
Local Abbreviation near := (in_range haversine_km ulat ulon max_distance_km).

(** A run that returns: its candidates are those of the parks in range, in
    catalog order, its best is the fold of [update_mejor] over them, and its
    requests are the forecast followed by those of the parks in range. *)
Lemma run_ok (log log' : list call) (mejor : option candidate)
    (candidatos : list candidate) :
  run log = (Ok (mejor, candidatos), log') ->
  exists data,
    open_meteo ulat ulon (today + day_offset)%Z = Json data /\
    mejor = fold_left update_mejor candidatos None /\
    Forall2 (built haversine_km google_elevation google_directions ulat ulon
               (today + day_offset)%Z max_distance_km
               (hourly_score (temperature_2m data) (precipitation data)))
            (filter near parks_col) candidatos /\
    log' = log ++ OpenMeteo ulat ulon (today + day_offset)%Z
               :: flat_map (calls_of ulat ulon) (filter near parks_col).
Proof.
  intros H. apply best_park_for_day_ok in H as (data & Hdata & H).
  apply for_parks_ok in H as (new & -> & -> & Hall & ->).
  exists data. cbn [app]. rewrite <- app_assoc. auto.
Qed.

(** The run returns when the forecast is delivered, every distance is
    computed and the two lookups of every park in range are answered. *)
Lemma run_returns (log : list call) (data : forecast) :
  open_meteo ulat ulon (today + day_offset)%Z = Json data ->
  (forall p, In p parks_col ->
     exists dist,
       haversine_km ulat ulon (snd (park_coordinates p))
                    (fst (park_coordinates p)) = Ok dist /\
       (dist <= max_distance_km ->
        exists results routes route_min,
          google_elevation (snd (park_coordinates p))
                           (fst (park_coordinates p)) = Json results /\
          google_directions ulat ulon (snd (park_coordinates p))
                            (fst (park_coordinates p)) = Json routes /\
          minutes_of_routes routes = Ok route_min)) ->
  exists mejor candidatos log', run log = (Ok (mejor, candidatos), log').
Proof.
  intros Hdata Hall. unfold best_park_for_day, get_weather_score_for_date.
  unfold bind at 1 2. unfold request at 1. rewrite Hdata. cbn [fetch ret].
  apply for_parks_returns.
  intros p lg Hp. apply process_park_returns. auto.
Qed.

(** C1: the best candidate of a run is the fold of [update_mejor] over the
    candidates produced: there is none when no candidate was produced, and
    otherwise it is the first candidate, in catalog order, whose
    [final_score] is the greatest: no candidate has a greater one and every
    earlier candidate has a strictly smaller one. *)
Theorem best_is_first_candidate_of_greatest_final_score
    (log log' : list call) (mejor : option candidate)
    (candidatos : list candidate) :
  run log = (Ok (mejor, candidatos), log') ->
  mejor = fold_left update_mejor candidatos None /\
  (candidatos = [] -> mejor = None) /\
  (candidatos <> [] ->
   exists i b,
     mejor = Some b /\
     nth_error candidatos i = Some b /\
     (forall j c, nth_error candidatos j = Some c ->
                  final_score c <= final_score b) /\
     (forall j c, (j < i)%nat -> nth_error candidatos j = Some c ->
                  final_score c < final_score b)).
Proof.
  intros H. apply run_ok in H as (data & _ & -> & _ & _).
  split; [reflexivity|]. split.
  - now intros ->.
  - intros Hne.
    destruct (fold_update_mejor_first_max candidatos Hne)
      as (i & b & Hfold & Hrest).
    exists i, b. now rewrite Hfold.
Qed.

(** C2, as the code has it: the score is rounded to two decimals when the
    candidate is built, the rounded value is the only one the candidate
    keeps, and it is the one compared: every [final_score] of a run is the
    two-decimal rounding of the full-precision score of its park and is
    left unchanged by a further rounding, and the best is a candidate whose
    rounded [final_score] no other candidate exceeds. *)
Theorem best_is_greatest_on_rounded_final_scores
    (log log' : list call) (mejor : option candidate)
    (candidatos : list candidate) :
  run log = (Ok (mejor, candidatos), log') ->
  (forall c, In c candidatos ->
     py_round (final_score c) 2 = final_score c /\
     exists p dist routes route_min,
       In p parks_col /\
       haversine_km ulat ulon (snd (park_coordinates p))
                    (fst (park_coordinates p)) = Ok dist /\
       google_directions ulat ulon (snd (park_coordinates p))
                         (fst (park_coordinates p)) = Json routes /\
       minutes_of_routes routes = Ok route_min /\
       final_score c
       = py_round (score (weather_score c) dist route_min) 2) /\
  (forall b, mejor = Some b ->
     In b candidatos /\
     forall c, In c candidatos -> final_score c <= final_score b).
Proof.
  intros H. apply run_ok in H as (data & _ & -> & Hall & _).
  split.
  - intros c Hc.
    destruct (Forall2_In_right _ _ _ _ Hall Hc) as (p & Hp & Hb).
    destruct Hb as (dist & results & routes & route_min
                    & Hd & _ & _ & Hr & Hm & ->).
    cbn [final_score weather_score candidato].
    split; [apply py_round_idempotent|].
    exists p, dist, routes, route_min.
    apply filter_In in Hp as [Hp _]. auto.
  - intros b Hb.
    destruct candidatos as [|c0 cs] eqn:Hcs; [discriminate|].
    rewrite <- Hcs in *.
    assert (Hne : candidatos <> []) by (rewrite Hcs; discriminate).
    destruct (fold_update_mejor_first_max candidatos Hne)
      as (i & b' & Hfold & Hi & Hmax & _).
    rewrite Hfold in Hb. injection Hb as <-. split.
    + eapply nth_error_In; eassumption.
    + intros c Hc. apply In_nth_error in Hc as [j Hj]. eauto.
Qed.

(** C6: a park farther than [max_distance_km] is dropped before anything is
    asked of the elevation and route providers and yields no candidate: the
    candidates of a run are, in catalog order, those of the parks within
    [max_distance_km], the requests of the run are the forecast followed by
    those of the parks within range, and when exactly one park of the
    catalog is within range the run returns exactly one candidate, which is
    the best. *)
Theorem parks_out_of_range_are_discarded
    (log log' : list call) (mejor : option candidate)
    (candidatos : list candidate) :
  run log = (Ok (mejor, candidatos), log') ->
  Forall2 (fun p c =>
             name c = park_name p /\
             location_lat c = snd (park_coordinates p) /\
             location_lon c = fst (park_coordinates p) /\
             exists dist,
               haversine_km ulat ulon (location_lat c) (location_lon c)
               = Ok dist /\
               dist <= max_distance_km /\
               distance_km c = py_round dist 2)
          (filter near parks_col) candidatos /\
  (forall c, In c candidatos ->
     exists dist,
       haversine_km ulat ulon (location_lat c) (location_lon c) = Ok dist /\
       dist <= max_distance_km) /\
  log' = log ++ OpenMeteo ulat ulon (today + day_offset)%Z
             :: flat_map (calls_of ulat ulon) (filter near parks_col) /\
  (List.length (filter near parks_col) = 1%nat ->
   exists c, candidatos = [c] /\ mejor = Some c).
Proof.
  intros H. apply run_ok in H as (data & _ & -> & Hall & ->).
  assert (Hshape :
    Forall2 (fun p c =>
               name c = park_name p /\
               location_lat c = snd (park_coordinates p) /\
               location_lon c = fst (park_coordinates p) /\
               exists dist,
                 haversine_km ulat ulon (location_lat c) (location_lon c)
                 = Ok dist /\
                 dist <= max_distance_km /\
                 distance_km c = py_round dist 2)
            (filter near parks_col) candidatos).
  { eapply Forall2_impl; [|exact Hall].
    intros p c (dist & results & routes & route_min
                & Hd & Hle & _ & _ & _ & ->).
    cbn. repeat split. exists dist. auto. }
  repeat split; trivial.
  - intros c Hc.
    destruct (Forall2_In_right _ _ _ _ Hshape Hc)
      as (p & _ & _ & _ & _ & dist & Hd & Hle & _).
    exists dist. auto.
  - intros Hone. apply Forall2_length in Hall. rewrite Hone in Hall.
    destruct candidatos as [|c [|c' cs]]; try discriminate.
    exists c. auto.
Qed.

(** C9, as the code has it: no failure of a provider is absorbed.  When the
    elevation or the route request of a park that passed the distance filter
    fails at the transport or at the HTTP-status level, the exception of
    that request leaves the run: after a delivered forecast and a stretch of
    answered parks, the run raises that very exception right after the
    failed request and returns no ranking; and whatever comes before, a run
    over a catalog holding such a park raises.  Only an answer that arrives
    and holds no result, or no route, gives the absent value. *)
Theorem provider_failure_aborts_the_run (log : list call) :
  (forall (before after : list park) (p : park) (e : exn) (data : forecast),
     parks_col = before ++ p :: after ->
     open_meteo ulat ulon (today + day_offset)%Z = Json data ->
     (forall q, In q before ->
        answered haversine_km google_elevation google_directions ulat ulon
                 max_distance_km q) ->
     near p = true ->
     (fetch (google_elevation (snd (park_coordinates p))
                              (fst (park_coordinates p))) = Raise e ->
      run log
      = (Raise e,
         log ++ OpenMeteo ulat ulon (today + day_offset)%Z
             :: flat_map (calls_of ulat ulon) (filter near before)
             ++ [GoogleElevation (snd (park_coordinates p))
                                 (fst (park_coordinates p))])) /\
     (forall results,
        google_elevation (snd (park_coordinates p))
                         (fst (park_coordinates p)) = Json results ->
        fetch (google_directions ulat ulon (snd (park_coordinates p))
                                 (fst (park_coordinates p))) = Raise e ->
        run log
        = (Raise e,
           log ++ OpenMeteo ulat ulon (today + day_offset)%Z
               :: flat_map (calls_of ulat ulon) (filter near before)
               ++ [GoogleElevation (snd (park_coordinates p))
                                   (fst (park_coordinates p));
                   GoogleDirections ulat ulon (snd (park_coordinates p))
                                    (fst (park_coordinates p))]))) /\
  (forall (p : park) (e : exn),
     In p parks_col ->
     near p = true ->
     fetch (google_elevation (snd (park_coordinates p))
                             (fst (park_coordinates p))) = Raise e \/
     fetch (google_directions ulat ulon (snd (park_coordinates p))
                              (fst (park_coordinates p))) = Raise e ->
     exists e' log', run log = (Raise e', log')) /\
  elevation_of_results [] = (None, "desconocido"%string) /\
  minutes_of_routes [] = Ok None.
Proof.
  split; [|split; [|split; reflexivity]].
  - intros before after p e data Hparks Hdata Hbefore Hnear.
    assert (Hrun : forall r calls,
              process_park haversine_km google_elevation google_directions
                ulat ulon (today + day_offset)%Z max_distance_km
                (hourly_score (temperature_2m data) (precipitation data)) p
                ((log ++ [OpenMeteo ulat ulon (today + day_offset)%Z])
                 ++ flat_map (calls_of ulat ulon) (filter near before))
              = (Raise r,
                 ((log ++ [OpenMeteo ulat ulon (today + day_offset)%Z])
                  ++ flat_map (calls_of ulat ulon) (filter near before))
                 ++ calls) ->
              run log
              = (Raise r,
                 log ++ OpenMeteo ulat ulon (today + day_offset)%Z
                     :: flat_map (calls_of ulat ulon) (filter near before)
                     ++ calls)).
    { intros r calls Hp.
      unfold best_park_for_day, get_weather_score_for_date.
      unfold bind at 1 2. unfold request at 1. rewrite Hdata.
      cbn [fetch ret]. rewrite Hparks.
      destruct (for_parks_prefix haversine_km google_elevation
                  google_directions ulat ulon (today + day_offset)%Z
                  max_distance_km
                  (hourly_score (temperature_2m data) (precipitation data))
                  before Hbefore None []
                  (log ++ [OpenMeteo ulat ulon (today + day_offset)%Z]))
        as (m' & cs' & Hgo).
      rewrite Hgo. cbn [for_parks]. unfold bind at 1. rewrite Hp.
      now rewrite <- !app_assoc. }
    destruct (process_park_raises haversine_km google_elevation
                google_directions ulat ulon (today + day_offset)%Z
                max_distance_km
                (hourly_score (temperature_2m data) (precipitation data))
                p e
                ((log ++ [OpenMeteo ulat ulon (today + day_offset)%Z])
                 ++ flat_map (calls_of ulat ulon) (filter near before))
                Hnear) as [Helev Hroute].
    split.
    + intros He. apply Hrun. now apply Helev.
    + intros results He Hr. apply Hrun. now apply (Hroute results).
  - intros p e Hin Hnear Hfail.
    destruct (run log) as [[[mejor candidatos]|e'] log'] eqn:Hrun.
    + exfalso. apply run_ok in Hrun as (data & _ & _ & Hall & _).
      assert (Hp : In p (filter near parks_col)) by (apply filter_In; auto).
      destruct (Forall2_In_left _ _ _ _ Hall Hp) as (c & _ & Hb).
      destruct Hb as (dist & results & routes & route_min
                      & _ & _ & He & Hr & _).
      rewrite He, Hr in Hfail. cbn in Hfail. destruct Hfail; discriminate.
    + eauto.
Qed.

End Ranking.

Section RouteOfNoDuration.

Variable haversine_km : Q -> Q -> Q -> Q -> outcome Q.
Variable google_elevation : Q -> Q -> response (list Q).
Variable google_directions : Q -> Q -> Q -> Q -> response (list (list Z)).
Variables (ulat ulon : Q) (target_date : date) (max_distance_km : Q) (ws : Z).

(** C10: a first leg of 0 seconds makes [get_best_route] return 0.0 minutes,
    not [None]; the loop then tests the value by its truth, so the candidate
    is the one an absent route gives: [route_minutes] is [None] and nothing
    is subtracted from the score for the route. *)
Theorem route_of_zero_seconds_counts_as_absent
    (p : park) (dist : Q) (results : list Q) (legs : list Z)
    (routes : list (list Z)) (log : list call) :
  let lat := snd (park_coordinates p) in
  let lon := fst (park_coordinates p) in
  haversine_km ulat ulon lat lon = Ok dist ->
  dist <= max_distance_km ->
  google_elevation lat lon = Json results ->
  google_directions ulat ulon lat lon = Json ((0%Z :: legs) :: routes) ->
  get_best_route google_directions ulat ulon lat lon log
  = (Ok (Some (inject_Z 0 / 60)),
     log ++ [GoogleDirections ulat ulon lat lon]) /\
  inject_Z 0 / 60 == 0 /\
  exists c,
    process_park haversine_km google_elevation google_directions
      ulat ulon target_date max_distance_km ws p log
    = (Ok (Some c), log ++ calls_of ulat ulon p) /\
    route_minutes c = None /\
    final_score c = py_round (inject_Z ws - dist) 2 /\
    c = candidato target_date ulat ulon p lat lon dist
          (elevation_of_results results) None ws.
Proof.
  intros lat lon Hd Hle He Hr. subst lat lon. split; [|split].
  - unfold get_best_route, bind, request, lift. rewrite Hr. reflexivity.
  - reflexivity.
  - eexists. split; [|repeat split].
    + unfold process_park, calls_of.
      destruct (park_coordinates p) as [lon lat]. cbn [fst snd] in *.
      unfold bind at 1. unfold lift at 1. rewrite Hd.
      apply Qgtb_le in Hle. rewrite Hle.
      unfold get_elevation, get_best_route, bind, request, lift, ret.
      rewrite He, Hr. cbn [fetch minutes_of_routes first_leg_duration].
      rewrite <- app_assoc. reflexivity.
    + reflexivity.
    + reflexivity.
Qed.

End RouteOfNoDuration.

(** ** The distance estimator *)

Section HaversineFacts.

Import Haversine.
Local Open Scope R_scope.

Lemma radicand_symmetric (lat1 lon1 lat2 lon2 : R) :
  radicand lat1 lon1 lat2 lon2 = radicand lat2 lon2 lat1 lon1.
Proof.
  unfold radicand, radians.
  replace ((lat1 - lat2) * (PI / 180) / 2)
    with (- ((lat2 - lat1) * (PI / 180) / 2)) by lra.
  replace ((lon1 - lon2) * (PI / 180) / 2)
    with (- ((lon2 - lon1) * (PI / 180) / 2)) by lra.
  rewrite !sin_neg. ring.
Qed.

Lemma radicand_same_point (lat lon : R) : radicand lat lon lat lon = 0.
Proof.
  unfold radicand, radians.
  replace ((lat - lat) * (PI / 180) / 2) with 0 by lra.
  replace ((lon - lon) * (PI / 180) / 2) with 0 by lra.
  rewrite sin_0. ring.
Qed.

Lemma of_radicand_in_domain (a : R) :
  0 <= a <= 1 -> of_radicand a = Ok (2 * 6371 * asin (sqrt a)).
Proof.
  intros [H0 H1]. unfold of_radicand, math_sqrt, math_asin.
  destruct (Rlt_dec a 0) as [Hneg|_]; [lra|].
  pose proof (sqrt_pos a) as Hs.
  assert (Hs1 : sqrt a <= 1).
  { rewrite <- sqrt_1. apply sqrt_le_1_alt. assumption. }
  destruct (Rlt_dec (sqrt a) (-1)) as [Hlow|_]; [lra|].
  destruct (Rlt_dec 1 (sqrt a)) as [Hhigh|_]; [lra|]. reflexivity.
Qed.

Lemma of_radicand_negative (a : R) : a < 0 -> of_radicand a = Raise ValueError.
Proof.
  intros H. unfold of_radicand, math_sqrt.
  destruct (Rlt_dec a 0); [reflexivity | contradiction].
Qed.

Lemma of_radicand_above_one (a : R) : 1 < a -> of_radicand a = Raise ValueError.
Proof.
  intros H. unfold of_radicand, math_sqrt, math_asin.
  destruct (Rlt_dec a 0) as [Hneg|_]; [lra|].
  assert (Hs : 1 < sqrt a).
  { rewrite <- sqrt_1 at 1. apply sqrt_lt_1_alt. lra. }
  destruct (Rlt_dec (sqrt a) (-1)) as [Hlow|_]; [reflexivity|].
  destruct (Rlt_dec 1 (sqrt a)) as [_|Hn]; [reflexivity | contradiction].
Qed.

(** C7: the distance estimator is symmetric in its two points, and the
    distance from a point to itself is 0. *)
Theorem haversine_km_symmetric_and_zero_on_the_diagonal :
  (forall lat1 lon1 lat2 lon2 : R,
     haversine_km lat1 lon1 lat2 lon2 = haversine_km lat2 lon2 lat1 lon1) /\
  (forall lat lon : R, haversine_km lat lon lat lon = Ok 0).
Proof.
  split.
  - intros. unfold haversine_km. now rewrite radicand_symmetric.
  - intros. unfold haversine_km. rewrite radicand_same_point.
    rewrite of_radicand_in_domain by lra.
    rewrite sqrt_0, asin_0. f_equal. ring.
Qed.

End HaversineFacts.

(** ** The distance estimator in binary64 *)

Section Binary64Facts.

Import PrimFloat.
Import Binary64.
Local Open Scope float_scope.

Variables sin cos asin : float -> float.
Variable pow : float -> float -> float.

(** C8, as the code has it: nothing clamps the radicand.  The estimator ends
    in the last step on the radicand as it was computed; that step raises a
    domain error when the radicand is below zero or when its square root,
    as computed, is above 1, and otherwise returns 12742 times the arc sine
    of that root.  So a radicand of [1 + 2^-52], whose root rounds to 1, still
    returns, while [1 + 2^-51] raises. *)
Theorem haversine_km_passes_the_radicand_unclamped :
  (forall lat1 lon1 lat2 lon2 a,
     radicand sin cos pow lat1 lon1 lat2 lon2 = Value a ->
     haversine_km sin cos asin pow lat1 lon1 lat2 lon2
     = of_radicand asin a) /\
  (forall a,
     of_radicand asin a = Raises DomainError <->
     (a <? 0) = true \/ (sqrt a <? -1) = true \/ (1 <? sqrt a) = true) /\
  (forall a,
     (a <? 0) = false -> (sqrt a <? -1) = false -> (1 <? sqrt a) = false ->
     of_radicand asin a = Value (12742 * asin (sqrt a))) /\
  of_radicand asin 0x1.0000000000001p+0 = Value (12742 * asin 1) /\
  of_radicand asin 0x1.0000000000002p+0 = Raises DomainError /\
  of_radicand asin (-0x0.0000000000001p-1022) = Raises DomainError.
Proof.
  split; [|split; [|split; [|repeat split]]].
  - intros lat1 lon1 lat2 lon2 a H. unfold haversine_km. now rewrite H.
  - intros a. unfold of_radicand, math_sqrt, math_asin.
    destruct (a <? 0); [intuition congruence|].
    destruct (sqrt a <? -1); destruct (1 <? sqrt a); cbn [orb];
      intuition congruence.
  - intros a H0 H1 H2. unfold of_radicand, math_sqrt, math_asin.
    now rewrite H0, H1, H2.
Qed.

End Binary64Facts.

Section Binary64Examples.

Import PrimFloat.
Local Open Scope float_scope.

Lemma haversine_km_passes_the_radicand_unclamped_witness :
  Binary64.radicand Glibc.sin Glibc.cos Glibc.pow
    Glibc.lat1 Glibc.lon1 Glibc.lat2 Glibc.lon2
  = Binary64.Value 0x1.0000000000002p+0 /\
  Binary64.haversine_km Glibc.sin Glibc.cos Glibc.asin Glibc.pow
    Glibc.lat1 Glibc.lon1 Glibc.lat2 Glibc.lon2
  = Binary64.of_radicand Glibc.asin 0x1.0000000000002p+0.
Proof.
  split; [vm_compute; reflexivity|].
  apply (proj1 (haversine_km_passes_the_radicand_unclamped
                  Glibc.sin Glibc.cos Glibc.asin Glibc.pow)).
  vm_compute. reflexivity.
Defined.

(** C8 fails: the two points (57.37602236586366, -135.27530720623122) and
    (-57.37602240666751, 44.72469269479064) have valid coordinates; their
    radicand comes out as [1 + 2^-51], its root as [1 + 2^-52], and the
    estimator raises a domain error instead of returning a distance. *)
Lemma haversine_km_raises_on_a_valid_pair :
  ((-90 <=? Glibc.lat1) && (Glibc.lat1 <=? 90)
   && (-90 <=? Glibc.lat2) && (Glibc.lat2 <=? 90)
   && (-180 <=? Glibc.lon1) && (Glibc.lon1 <=? 180)
   && (-180 <=? Glibc.lon2) && (Glibc.lon2 <=? 180)) = true /\
  Binary64.radicand Glibc.sin Glibc.cos Glibc.pow
    Glibc.lat1 Glibc.lon1 Glibc.lat2 Glibc.lon2
  = Binary64.Value 0x1.0000000000002p+0 /\
  sqrt 0x1.0000000000002p+0 = 0x1.0000000000001p+0 /\
  Binary64.haversine_km Glibc.sin Glibc.cos Glibc.asin Glibc.pow
    Glibc.lat1 Glibc.lon1 Glibc.lat2 Glibc.lon2
  = Binary64.Raises Binary64.DomainError.
Proof.
  repeat split; vm_compute; reflexivity.
Qed.

End Binary64Examples.

(** ** The properties on the sample query *)

Lemma best_is_first_candidate_of_greatest_final_score_witness :
  exists mejor candidatos log',
    Sample.ranking [Sample.retiro; Sample.oeste]
    = (Ok (mejor, candidatos), log') /\
    option_map name mejor = Some "Parque de El Retiro"%string /\
    map final_score candidatos = [3186 # 100; 3186 # 100] /\
    mejor = fold_left update_mejor candidatos None /\
    (candidatos = [] -> mejor = None) /\
    (candidatos <> [] ->
     exists i b,
       mejor = Some b /\
       nth_error candidatos i = Some b /\
       (forall j c, nth_error candidatos j = Some c ->
                    final_score c <= final_score b) /\
       (forall j c, (j < i)%nat -> nth_error candidatos j = Some c ->
                    final_score c < final_score b)).
Proof.
  eexists _, _, _. split; [vm_compute; reflexivity|].
  split; [reflexivity|]. split; [reflexivity|].
  eapply (best_is_first_candidate_of_greatest_final_score
           Sample.haversine_km Sample.open_meteo Sample.google_elevation
           Sample.google_directions [Sample.retiro; Sample.oeste]
           Sample.today Sample.sol_lat Sample.sol_lon 1 15 []).
  vm_compute. reflexivity.
Defined.

(** C2 fails: with Parque del Oeste before El Retiro in the catalog, both
    final scores are 31.86 and the best is Parque del Oeste, although its
    score before rounding (about 31.8572) is below that of El Retiro (about
    31.8576). *)
Lemma best_is_not_greatest_before_rounding :
  match fst (Sample.ranking [Sample.oeste; Sample.retiro]) with
  | Ok (Some b, [c1; c2]) =>
      b = c1 /\
      name c1 = "Parque del Oeste"%string /\
      name c2 = "Parque de El Retiro"%string /\
      final_score c1 == 3186 # 100 /\
      final_score c2 == 3186 # 100 /\
      score 36 (23845005 # 10000000) (Some (inject_Z 1055 / 60))
      < score 36 (16424099 # 10000000) (Some (inject_Z 1500 / 60))
  | _ => False
  end.
Proof.
  vm_compute. repeat split.
Qed.

Lemma best_is_greatest_on_rounded_final_scores_witness :
  exists mejor candidatos log',
    Sample.ranking [Sample.oeste; Sample.retiro]
    = (Ok (mejor, candidatos), log') /\
    (forall c, In c candidatos ->
       py_round (final_score c) 2 = final_score c) /\
    (forall b, mejor = Some b ->
       In b candidatos /\
       forall c, In c candidatos -> final_score c <= final_score b).
Proof.
  eexists _, _, _. split; [vm_compute; reflexivity|].
  pose proof (best_is_greatest_on_rounded_final_scores
                Sample.haversine_km Sample.open_meteo Sample.google_elevation
                Sample.google_directions [Sample.oeste; Sample.retiro]
                Sample.today Sample.sol_lat Sample.sol_lon 1 15 [] _ _ _
                ltac:(vm_compute; reflexivity)) as [Hrounded Hbest].
  split; [|exact Hbest].
  intros c Hc. exact (proj1 (Hrounded c Hc)).
Defined.

Lemma parks_out_of_range_are_discarded_witness :
  exists c log',
    Sample.ranking [Sample.alcala; Sample.retiro; Sample.aranjuez]
    = (Ok (Some c, [c]), log') /\
    name c = "Parque de El Retiro"%string /\
    log' = [OpenMeteo Sample.sol_lat Sample.sol_lon (Sample.today + 1)%Z;
            GoogleElevation (404153 # 10000) (- (36845 # 10000));
            GoogleDirections Sample.sol_lat Sample.sol_lon
                             (404153 # 10000) (- (36845 # 10000))].
Proof.
  destruct (Sample.ranking [Sample.alcala; Sample.retiro; Sample.aranjuez])
    as [[[mejor candidatos]|e] log'] eqn:Hrun;
    [|vm_compute in Hrun; discriminate].
  pose proof (parks_out_of_range_are_discarded
                Sample.haversine_km Sample.open_meteo Sample.google_elevation
                Sample.google_directions
                [Sample.alcala; Sample.retiro; Sample.aranjuez]
                Sample.today Sample.sol_lat Sample.sol_lon 1 15 [] _ _ _ Hrun)
    as (Hshape & _ & Hlog & Hone).
  destruct (Hone eq_refl) as (c & -> & ->).
  exists c, log'. split; [reflexivity|]. split.
  - inversion Hshape as [|p c' ps cs (Hname & _) _]; subst. exact Hname.
  - exact Hlog.
Defined.

(** C9 fails: with the elevation provider answering 503, the query over a
    catalog holding El Retiro alone raises [HTTPError] right after the
    elevation request, and returns neither a candidate list nor a best. *)
Lemma elevation_failure_aborts_the_sample_query :
  best_park_for_day Sample.haversine_km Sample.open_meteo
    Sample.elevation_down Sample.google_directions [Sample.retiro]
    Sample.today Sample.sol_lat Sample.sol_lon 1 15 []
  = (Raise HTTPError,
     [OpenMeteo Sample.sol_lat Sample.sol_lon (Sample.today + 1)%Z;
      GoogleElevation (404153 # 10000) (- (36845 # 10000))]).
Proof.
  vm_compute. reflexivity.
Qed.

Lemma provider_failure_aborts_the_run_witness :
  best_park_for_day Sample.haversine_km Sample.open_meteo
    Sample.elevation_down Sample.google_directions
    [Sample.alcala; Sample.retiro; Sample.oeste]
    Sample.today Sample.sol_lat Sample.sol_lon 1 15 []
  = (Raise HTTPError,
     [] ++ OpenMeteo Sample.sol_lat Sample.sol_lon (Sample.today + 1)%Z
        :: flat_map (calls_of Sample.sol_lat Sample.sol_lon)
             (filter (in_range Sample.haversine_km Sample.sol_lat
                               Sample.sol_lon 15) [Sample.alcala])
        ++ [GoogleElevation (snd (park_coordinates Sample.retiro))
                            (fst (park_coordinates Sample.retiro))]).
Proof.
  refine (proj1 (proj1 (provider_failure_aborts_the_run
                          Sample.haversine_km Sample.open_meteo
                          Sample.elevation_down Sample.google_directions
                          [Sample.alcala; Sample.retiro; Sample.oeste]
                          Sample.today Sample.sol_lat Sample.sol_lon 1 15 [])
                       [Sample.alcala] [Sample.oeste] Sample.retiro HTTPError
                       Sample.mild_day _ _ _ _) _).
  - reflexivity.
  - reflexivity.
  - intros q [<-|[]]. exists (296802161 # 10000000).
    split; [vm_compute; reflexivity|].
    intros H. vm_compute in H. exfalso. apply H. reflexivity.
  - vm_compute. reflexivity.
  - reflexivity.
Defined.

Lemma route_of_zero_seconds_counts_as_absent_witness :
  exists c,
    process_park Sample.haversine_km Sample.google_elevation
      Sample.directions_at_the_door Sample.sol_lat Sample.sol_lon
      (Sample.today + 1)%Z 15 36 Sample.retiro []
    = (Ok (Some c), calls_of Sample.sol_lat Sample.sol_lon Sample.retiro) /\
    route_minutes c = None /\
    final_score c = py_round (36 - (16424099 # 10000000)) 2.
Proof.
  destruct (route_of_zero_seconds_counts_as_absent
              Sample.haversine_km Sample.google_elevation
              Sample.directions_at_the_door Sample.sol_lat Sample.sol_lon
              (Sample.today + 1)%Z 15 36 Sample.retiro
              (16424099 # 10000000) [667] [] [] [])
    as (_ & _ & c & Hc & Hroute & Hscore & _).
  - vm_compute. reflexivity.
  - vm_compute. discriminate.
  - reflexivity.
  - reflexivity.
  - exists c. auto.
Defined.

(** * Further properties of the code *)

(** ** The mediator *)

(** [get_elevation] returns the elevation of the first result, whatever
    follows it, with the category of the band it falls in: "llano" below
    650 m, "moderado" from 650 m and below 750 m, "elevado" from 750 m. *)
Theorem get_elevation_classifies_first_result
    (google_elevation : Q -> Q -> response (list Q)) (lat lon e : Q)
    (others : list Q) (log : list call) :
  google_elevation lat lon = Json (e :: others) ->
  exists cat,
    get_elevation google_elevation lat lon log
    = (Ok (Some e, cat), log ++ [GoogleElevation lat lon]) /\
    (cat = "llano"%string <-> e < 650) /\
    (cat = "moderado"%string <-> 650 <= e /\ e < 750) /\
    (cat = "elevado"%string <-> 750 <= e).
Proof.
  intros H. exists (elevation_category_of e). split.
  - unfold get_elevation, bind, request, ret. rewrite H. reflexivity.
  - unfold elevation_category_of.
    destruct (Qltb e 650) eqn:H1; [|destruct (Qltb e 750) eqn:H2];
      order_facts; repeat split; intros; try discriminate; trivial;
      try Lqa.lra; exfalso; Lqa.lra.
Qed.

Lemma get_elevation_classifies_first_result_witness :
  exists cat,
    get_elevation Sample.google_elevation (404153 # 10000)
                  (- (36845 # 10000)) []
    = (Ok (Some 667, cat),
       [GoogleElevation (404153 # 10000) (- (36845 # 10000))]) /\
    (cat = "llano"%string <-> 667 < 650) /\
    (cat = "moderado"%string <-> 650 <= 667 /\ 667 < 750) /\
    (cat = "elevado"%string <-> 750 <= 667).
Proof.
  exact (get_elevation_classifies_first_result Sample.google_elevation
           (404153 # 10000) (- (36845 # 10000)) 667 [] [] eq_refl).
Defined.

Lemma combine_append {A B : Type} (l1 l2 : list A) (l1' l2' : list B) :
  List.length l1 = List.length l1' ->
  combine (l1 ++ l2) (l1' ++ l2') = combine l1 l1' ++ combine l2 l2'.
Proof.
  revert l1'. induction l1 as [|a l1 IH]; intros [|b l1'] H;
    simpl in H; try discriminate; trivial.
  injection H as H. cbn. now rewrite IH.
Qed.

(** Hours add up: the score of two stretches of hours put end to end is the
    sum of their scores. *)
Theorem hourly_score_app (temps1 precs1 temps2 precs2 : list Q) :
  List.length temps1 = List.length precs1 ->
  hourly_score (temps1 ++ temps2) (precs1 ++ precs2)
  = (hourly_score temps1 precs1 + hourly_score temps2 precs2)%Z.
Proof.
  intros Hlen. unfold hourly_score.
  rewrite combine_append by assumption.
  rewrite fold_left_app, !fold_hour_step. lia.
Qed.

Lemma hourly_score_app_witness :
  let morning : list Q := [12; 26] in
  let evening : list Q := [18; 3] in
  let morning_rain : list Q := [0; 1 # 2] in
  let evening_rain : list Q := [3; 0] in
  hourly_score (morning ++ evening) (morning_rain ++ evening_rain)
  = (hourly_score morning morning_rain + hourly_score evening evening_rain)%Z.
Proof.
  apply (hourly_score_app [12; 26] [0; 1 # 2] [18; 3] [3; 0]). reflexivity.
Defined.

(** ** Rounding error *)

Lemma round_half_even_error (q : Q) :
  - (1 # 2) <= inject_Z (round_half_even q) - q <= 1 # 2.
Proof.
  unfold round_half_even.
  pose proof (Qfloor_le q) as Hlo. pose proof (Qlt_floor q) as Hhi.
  rewrite inject_Z_plus in Hhi. change (inject_Z 1) with 1 in Hhi.
  set (n := Qfloor q) in *.
  destruct (Qcompare_spec (q - inject_Z n) (1 # 2)) as [He|Hl|Hg].
  - destruct (Z.even n); rewrite ?inject_Z_plus;
      change (inject_Z 1) with 1; split; Lqa.lra.
  - split; Lqa.lra.
  - rewrite inject_Z_plus. change (inject_Z 1) with 1. split; Lqa.lra.
Qed.

(** Rounding to two decimals moves a value by half a hundredth at most. *)
Lemma py_round_2_error (x : Q) :
  - (1 # 200) <= py_round x 2 - x <= 1 # 200.
Proof.
  unfold py_round. change (inject_Z (10 ^ Z.of_nat 2)) with 100.
  pose proof (round_half_even_error (x * 100)) as H.
  set (k := inject_Z (round_half_even (x * 100))) in *.
  assert (Hk : k / 100 == k * (1 # 100)) by (field).
  rewrite Hk. split; Lqa.lra.
Qed.

(** ** More on the ranking run *)

Section RankingEdges.

Variable haversine_km : Q -> Q -> Q -> Q -> outcome Q.
Variable open_meteo : Q -> Q -> date -> response forecast.
Variable google_elevation : Q -> Q -> response (list Q).
Variable google_directions : Q -> Q -> Q -> Q -> response (list (list Z)).
Variable parks_col : list park.
Variable today : date.
Variables (ulat ulon : Q) (day_offset : Z) (max_distance_km : Q).

Local Abbreviation run :=
  (best_park_for_day haversine_km open_meteo google_elevation
     google_directions parks_col today ulat ulon day_offset max_distance_km).
Local Abbreviation near := (in_range haversine_km ulat ulon max_distance_km).

(** A forecast request that fails is fatal: the run raises the exception of
    the request at once, having asked nothing about any park. *)
Theorem forecast_failure_aborts_before_any_park (e : exn) (log : list call) :
  fetch (open_meteo ulat ulon (today + day_offset)%Z) = Raise e ->
  run log = (Raise e, log ++ [OpenMeteo ulat ulon (today + day_offset)%Z]).
Proof.
  intros H. unfold best_park_for_day, get_weather_score_for_date.
  unfold bind, request. now rewrite H.
Qed.

(** A first route without legs is not taken for an absent route:
    [get_best_route] raises [IndexError], and a run over a catalog holding
    such a park within range raises instead of returning a ranking. *)
Theorem route_without_legs_aborts_the_run
    (p : park) (routes : list (list Z)) (log : list call) :
  In p parks_col ->
  near p = true ->
  google_directions ulat ulon (snd (park_coordinates p))
                    (fst (park_coordinates p)) = Json ([] :: routes) ->
  get_best_route google_directions ulat ulon (snd (park_coordinates p))
                 (fst (park_coordinates p)) log
  = (Raise IndexError,
     log ++ [GoogleDirections ulat ulon (snd (park_coordinates p))
                              (fst (park_coordinates p))]) /\
  exists e log', run log = (Raise e, log').
Proof.
  intros Hin Hnear Hr. split.
  - unfold get_best_route, bind, request, lift. rewrite Hr. reflexivity.
  - destruct (run log) as [[[mejor candidatos]|e'] log'] eqn:Hrun; [|eauto].
    exfalso. apply run_ok in Hrun as (data & _ & _ & Hall & _).
    assert (Hp : In p (filter near parks_col)) by (apply filter_In; auto).
    destruct (Forall2_In_left _ _ _ _ Hall Hp) as (c & _ & Hb).
    destruct Hb as (dist & results & routes' & route_min
                    & _ & _ & _ & Hr' & Hm & _).
    rewrite Hr in Hr'. injection Hr' as <-. discriminate.
Qed.

(** A run that returns has no best exactly when it has no candidate, and no
    candidate exactly when no park of the catalog is within range; an empty
    catalog gives [(None, [])]. *)
Theorem no_best_iff_no_park_in_range
    (log log' : list call) (mejor : option candidate)
    (candidatos : list candidate) :
  run log = (Ok (mejor, candidatos), log') ->
  (mejor = None <-> candidatos = []) /\
  (candidatos = [] <-> filter near parks_col = []) /\
  (parks_col = [] -> mejor = None /\ candidatos = []).
Proof.
  intros H. apply run_ok in H as (data & _ & -> & Hall & _).
  assert (Hbest : fold_left update_mejor candidatos None = None
                  <-> candidatos = []).
  { split; [|now intros ->].
    intros Hnone. destruct candidatos as [|c cs]; [reflexivity|].
    destruct (fold_update_mejor_first_max (c :: cs))
      as (i & b & Hfold & _); [discriminate|]. congruence. }
  assert (Hempty : candidatos = [] <-> filter near parks_col = []).
  { apply Forall2_length in Hall.
    split; intros E; rewrite E in Hall;
      [destruct (filter near parks_col) | destruct candidatos];
      trivial; discriminate. }
  split; [exact Hbest|]. split; [exact Hempty|].
  intros E. rewrite E in Hall. cbn in Hall. inversion Hall. now split.
Qed.

(** A run that returns has issued the forecast request and then, for each
    candidate in turn, the elevation request and the route request for the
    coordinates of that candidate, and nothing else: one plus two requests
    per candidate. *)
Theorem run_issues_one_plus_two_requests_per_candidate
    (log log' : list call) (mejor : option candidate)
    (candidatos : list candidate) :
  run log = (Ok (mejor, candidatos), log') ->
  log'
  = log ++ OpenMeteo ulat ulon (today + day_offset)%Z
        :: flat_map (fun c =>
                       [GoogleElevation (location_lat c) (location_lon c);
                        GoogleDirections ulat ulon (location_lat c)
                                         (location_lon c)])
                    candidatos /\
  List.length log'
  = (List.length log + 1 + 2 * List.length candidatos)%nat.
Proof.
  intros H. apply run_ok in H as (data & _ & _ & Hall & ->).
  assert (Hcalls :
    flat_map (calls_of ulat ulon) (filter near parks_col)
    = flat_map (fun c =>
                  [GoogleElevation (location_lat c) (location_lon c);
                   GoogleDirections ulat ulon (location_lat c)
                                    (location_lon c)])
               candidatos).
  { induction Hall as [|p c ps cs Hb _ IH]; [reflexivity|].
    cbn [flat_map]. rewrite IH. f_equal.
    destruct Hb as (dist & results & routes & route_min
                    & _ & _ & _ & _ & _ & ->).
    unfold calls_of. cbn [location_lat location_lon candidato].
    now destruct (park_coordinates p). }
  rewrite Hcalls. split; [reflexivity|].
  rewrite length_app. cbn [List.length].
  assert (Hlen : forall l : list candidate,
            List.length
              (flat_map (fun c =>
                           [GoogleElevation (location_lat c) (location_lon c);
                            GoogleDirections ulat ulon (location_lat c)
                                             (location_lon c)]) l)
            = (2 * List.length l)%nat).
  { induction l as [|c l IH]; [reflexivity|].
    cbn [flat_map List.length app]. rewrite IH. lia. }
  rewrite Hlen. lia.
Qed.

(** The candidates of one run agree on what belongs to the query: its day,
    the user's coordinates and the weather score, which is that of the one
    forecast the run asked for. *)
Theorem candidates_share_the_query_fields
    (log log' : list call) (mejor : option candidate)
    (candidatos : list candidate) :
  run log = (Ok (mejor, candidatos), log') ->
  exists data,
    open_meteo ulat ulon (today + day_offset)%Z = Json data /\
    forall c, In c candidatos ->
      day c = (today + day_offset)%Z /\
      user_lat c = ulat /\ user_lon c = ulon /\
      weather_score c
      = hourly_score (temperature_2m data) (precipitation data).
Proof.
  intros H. apply run_ok in H as (data & Hdata & _ & Hall & _).
  exists data. split; [assumption|]. intros c Hc.
  destruct (Forall2_In_right _ _ _ _ Hall Hc) as (p & _ & Hb).
  destruct Hb as (dist & results & routes & route_min & _ & _ & _ & _ & _ & ->).
  cbn. auto.
Qed.

(** The category of a candidate is "desconocido" exactly when it has no
    elevation; otherwise it is the category of its elevation. *)
Theorem candidate_category_matches_its_elevation
    (log log' : list call) (mejor : option candidate)
    (candidatos : list candidate) :
  run log = (Ok (mejor, candidatos), log') ->
  forall c, In c candidatos ->
    match elevation c with
    | None => elevation_category c = "desconocido"%string
    | Some e =>
        elevation_category c = elevation_category_of e /\
        elevation_category c <> "desconocido"%string
    end.
Proof.
  intros H c Hc. apply run_ok in H as (data & _ & _ & Hall & _).
  destruct (Forall2_In_right _ _ _ _ Hall Hc) as (p & _ & Hb).
  destruct Hb as (dist & results & routes & route_min & _ & _ & _ & _ & _ & ->).
  destruct results as [|e others]; cbn; [reflexivity|].
  split; [reflexivity|]. unfold elevation_category_of.
  destruct (Qltb e 650); [|destruct (Qltb e 750)]; discriminate.
Qed.

(** The best of a run may fall short of another candidate before rounding,
    but by no more than a hundredth: whatever the scores whose roundings
    the candidates carry, none exceeds that of the best by more than 0.01. *)
Theorem best_is_within_a_hundredth_before_rounding
    (log log' : list call) (b : candidate) (candidatos : list candidate) :
  run log = (Ok (Some b, candidatos), log') ->
  forall (c : candidate) (s_b s_c : Q),
    In c candidatos ->
    final_score b == py_round s_b 2 ->
    final_score c == py_round s_c 2 ->
    s_c <= s_b + (1 # 100).
Proof.
  intros H c s_b s_c Hc Hb Hsc.
  apply run_ok in H as (data & _ & Hfold & _ & _).
  assert (Hne : candidatos <> []) by (intros ->; contradiction).
  destruct (fold_update_mejor_first_max candidatos Hne)
    as (i & b' & Hfold' & _ & Hmax & _).
  rewrite Hfold' in Hfold. injection Hfold as ->.
  apply In_nth_error in Hc as [j Hj]. specialize (Hmax j c Hj).
  pose proof (py_round_2_error s_b). pose proof (py_round_2_error s_c).
  rewrite Hb, Hsc in Hmax. Lqa.lra.
Qed.

End RankingEdges.

Lemma forecast_failure_aborts_before_any_park_witness :
  best_park_for_day Sample.haversine_km Faults.forecast_down
    Sample.google_elevation Sample.google_directions
    [Sample.retiro; Sample.oeste] Sample.today
    Sample.sol_lat Sample.sol_lon 1 15 []
  = (Raise RequestException,
     [OpenMeteo Sample.sol_lat Sample.sol_lon (Sample.today + 1)%Z]).
Proof.
  exact (forecast_failure_aborts_before_any_park
           Sample.haversine_km Faults.forecast_down Sample.google_elevation
           Sample.google_directions [Sample.retiro; Sample.oeste]
           Sample.today Sample.sol_lat Sample.sol_lon 1 15
           RequestException [] eq_refl).
Defined.

Lemma route_without_legs_aborts_the_run_witness :
  exists e log',
    best_park_for_day Sample.haversine_km Sample.open_meteo
      Sample.google_elevation Faults.directions_without_legs
      [Sample.alcala; Sample.retiro] Sample.today
      Sample.sol_lat Sample.sol_lon 1 15 []
    = (Raise e, log').
Proof.
  refine (proj2 (route_without_legs_aborts_the_run
                   Sample.haversine_km Sample.open_meteo
                   Sample.google_elevation Faults.directions_without_legs
                   [Sample.alcala; Sample.retiro] Sample.today
                   Sample.sol_lat Sample.sol_lon 1 15
                   Sample.retiro [] [] _ _ _)).
  - simpl. auto.
  - vm_compute. reflexivity.
  - reflexivity.
Defined.

Lemma no_best_iff_no_park_in_range_witness :
  exists mejor candidatos log',
    Sample.ranking [Sample.alcala; Sample.aranjuez]
    = (Ok (mejor, candidatos), log') /\
    mejor = None /\ candidatos = [].
Proof.
  destruct (Sample.ranking [Sample.alcala; Sample.aranjuez])
    as [[[mejor candidatos]|e] log'] eqn:Hrun;
    [|vm_compute in Hrun; discriminate].
  pose proof (no_best_iff_no_park_in_range
                Sample.haversine_km Sample.open_meteo Sample.google_elevation
                Sample.google_directions [Sample.alcala; Sample.aranjuez]
                Sample.today Sample.sol_lat Sample.sol_lon 1 15 [] _ _ _ Hrun)
    as (Hbest & Hnone & _).
  assert (Hc : candidatos = []) by (apply Hnone; reflexivity).
  exists mejor, candidatos, log'. split; [reflexivity|].
  split; [apply Hbest|]; exact Hc.
Defined.

Lemma run_issues_one_plus_two_requests_per_candidate_witness :
  exists mejor candidatos,
    Sample.ranking [Sample.alcala; Sample.retiro; Sample.oeste]
    = (Ok (mejor, candidatos),
       [] ++ OpenMeteo Sample.sol_lat Sample.sol_lon (Sample.today + 1)%Z
          :: flat_map (fun c =>
                         [GoogleElevation (location_lat c) (location_lon c);
                          GoogleDirections Sample.sol_lat Sample.sol_lon
                            (location_lat c) (location_lon c)])
                      candidatos) /\
    map name candidatos
    = ["Parque de El Retiro"; "Parque del Oeste"]%string.
Proof.
  destruct (Sample.ranking [Sample.alcala; Sample.retiro; Sample.oeste])
    as [[[mejor candidatos]|e] log'] eqn:Hrun;
    [|vm_compute in Hrun; discriminate].
  destruct (run_issues_one_plus_two_requests_per_candidate
              Sample.haversine_km Sample.open_meteo Sample.google_elevation
              Sample.google_directions
              [Sample.alcala; Sample.retiro; Sample.oeste] Sample.today
              Sample.sol_lat Sample.sol_lon 1 15 [] _ _ _ Hrun)
    as [Hlog _].
  exists mejor, candidatos. rewrite Hlog. split; [reflexivity|].
  vm_compute in Hrun. injection Hrun as _ <- _. reflexivity.
Defined.

Lemma candidates_share_the_query_fields_witness :
  exists mejor candidatos log',
    Sample.ranking [Sample.casa_de_campo; Sample.retiro]
    = (Ok (mejor, candidatos), log') /\
    forall c, In c candidatos ->
      day c = (Sample.today + 1)%Z /\ weather_score c = 36%Z.
Proof.
  eexists _, _, _. split; [vm_compute; reflexivity|].
  destruct (candidates_share_the_query_fields
              Sample.haversine_km Sample.open_meteo Sample.google_elevation
              Sample.google_directions [Sample.casa_de_campo; Sample.retiro]
              Sample.today Sample.sol_lat Sample.sol_lon 1 15 [] _ _ _
              ltac:(vm_compute; reflexivity)) as (data & Hdata & Hall).
  injection Hdata as <-.
  intros c Hc. destruct (Hall c Hc) as (Hday & _ & _ & Hws).
  split; [exact Hday | exact Hws].
Defined.

Lemma candidate_category_matches_its_elevation_witness :
  exists mejor candidatos log',
    Sample.ranking [Sample.casa_de_campo; Sample.retiro]
    = (Ok (mejor, candidatos), log') /\
    forall c, In c candidatos ->
      match elevation c with
      | None => elevation_category c = "desconocido"%string
      | Some e =>
          elevation_category c = elevation_category_of e /\
          elevation_category c <> "desconocido"%string
      end.
Proof.
  eexists _, _, _. split; [vm_compute; reflexivity|].
  eapply (candidate_category_matches_its_elevation
            Sample.haversine_km Sample.open_meteo Sample.google_elevation
            Sample.google_directions [Sample.casa_de_campo; Sample.retiro]
            Sample.today Sample.sol_lat Sample.sol_lon 1 15 []).
  vm_compute. reflexivity.
Defined.

Lemma best_is_within_a_hundredth_before_rounding_witness :
  score 36 (16424099 # 10000000) (Some (inject_Z 1500 / 60))
  <= score 36 (23845005 # 10000000) (Some (inject_Z 1055 / 60)) + (1 # 100).
Proof.
  pose proof (best_is_within_a_hundredth_before_rounding
                Sample.haversine_km Sample.open_meteo Sample.google_elevation
                Sample.google_directions [Sample.oeste; Sample.retiro]
                Sample.today Sample.sol_lat Sample.sol_lon 1 15 [] _ _ _
                ltac:(vm_compute; reflexivity)) as H.
  eapply H.
  - right. left. reflexivity.
  - vm_compute. reflexivity.
  - vm_compute. reflexivity.
Defined.

(** ** More on the distance estimator *)

Section HaversineGeometry.

Import Haversine.
Local Open Scope R_scope.

Lemma asin_of_unit_interval (x : R) : 0 <= x <= 1 -> 0 <= asin x <= PI / 2.
Proof.
  intros Hx. pose proof (asin_bound x) as [Hlo Hhi]. split; [|assumption].
  destruct (Rle_lt_dec 0 (asin x)) as [H|H]; [assumption|].
  exfalso. pose proof PI_RGT_0.
  assert (Hs : sin (asin x) < 0) by (apply sin_lt_0_var; lra).
  rewrite sin_asin in Hs by lra. lra.
Qed.

(** On the square of a sine the last step returns the arc itself. *)
Lemma of_radicand_sin_squared (x : R) :
  - (PI / 2) <= x <= PI / 2 ->
  of_radicand (sin x ^ 2) = Ok (2 * 6371 * Rabs x).
Proof.
  intros Hx. pose proof PI_RGT_0 as Hpi.
  pose proof (SIN_bound x) as Hs.
  rewrite of_radicand_in_domain by nra.
  rewrite <- Rsqr_pow2, sqrt_Rsqr_abs.
  destruct (Rle_lt_dec 0 x) as [Hpos|Hneg].
  - rewrite (Rabs_right (sin x)) by (apply Rle_ge, sin_ge_0; lra).
    rewrite asin_sin by lra. rewrite (Rabs_right x) by lra. reflexivity.
  - assert (Hsn : sin x < 0) by (apply sin_lt_0_var; lra).
    rewrite (Rabs_left (sin x)) by assumption. rewrite <- sin_neg.
    rewrite asin_sin by lra. rewrite (Rabs_left x) by assumption.
    reflexivity.
Qed.

(** Whenever the estimator returns, what it returns lies between 0 and half
    the circumference of the sphere, [6371 * PI] km. *)
Theorem haversine_km_at_most_half_the_circumference
    (lat1 lon1 lat2 lon2 d : R) :
  haversine_km lat1 lon1 lat2 lon2 = Ok d -> 0 <= d <= 6371 * PI.
Proof.
  unfold haversine_km. set (a := radicand lat1 lon1 lat2 lon2).
  intros H.
  destruct (Rlt_dec a 0) as [Hneg|Hnn];
    [rewrite of_radicand_negative in H by assumption; discriminate|].
  destruct (Rlt_dec 1 a) as [Hbig|Hsmall];
    [rewrite of_radicand_above_one in H by assumption; discriminate|].
  rewrite of_radicand_in_domain in H by lra. injection H as <-.
  assert (Hs : 0 <= sqrt a <= 1).
  { split; [apply sqrt_pos|].
    rewrite <- sqrt_1. apply sqrt_le_1_alt. lra. }
  pose proof (asin_of_unit_interval _ Hs). lra.
Qed.

Lemma haversine_km_at_most_half_the_circumference_witness :
  0 <= 6371 * (Rabs (180 - 0) * (PI / 180)) <= 6371 * PI.
Proof.
  apply (haversine_km_at_most_half_the_circumference 0 0 0 180).
  unfold haversine_km, radicand.
  replace (radians (0 - 0) / 2) with 0 by (unfold radians; field).
  replace (radians 0) with 0 by (unfold radians; ring).
  rewrite sin_0, cos_0.
  replace (0 ^ 2 + 1 * 1 * sin (radians (180 - 0) / 2) ^ 2)
    with (sin (radians (180 - 0) / 2) ^ 2) by ring.
  pose proof PI_RGT_0 as Hpi.
  rewrite of_radicand_sin_squared by (unfold radians; lra).
  f_equal. unfold radians.
  replace ((180 - 0) * (PI / 180) / 2) with ((180 - 0) * (PI / 360))
    by field.
  rewrite Rabs_mult, (Rabs_right (PI / 360)) by lra. field.
Defined.

(** Only the difference of the two longitudes matters, and it matters up
    to whole turns: moving both points by the same angle of longitude, or
    one of them by 360 degrees, leaves the distance unchanged. *)
Theorem haversine_km_depends_on_longitude_difference :
  (forall lat1 lon1 lat2 lon2 shift : R,
     haversine_km lat1 (lon1 + shift) lat2 (lon2 + shift)
     = haversine_km lat1 lon1 lat2 lon2) /\
  (forall lat1 lon1 lat2 lon2 : R,
     haversine_km lat1 lon1 lat2 (lon2 + 360)
     = haversine_km lat1 lon1 lat2 lon2).
Proof.
  split; intros; unfold haversine_km; f_equal; unfold radicand, radians.
  - replace (lon2 + shift - (lon1 + shift)) with (lon2 - lon1) by ring.
    reflexivity.
  - replace ((lon2 + 360 - lon1) * (PI / 180) / 2)
      with ((lon2 - lon1) * (PI / 180) / 2 + PI) by field.
    rewrite neg_sin. ring.
Qed.

(** Along a meridian, and along the equator, the distance is the arc: 6371 km
    times the difference of the latitudes, or of the longitudes, in
    radians. *)
Theorem haversine_km_along_meridian_and_equator :
  (forall lat1 lat2 lon : R,
     -90 <= lat1 <= 90 -> -90 <= lat2 <= 90 ->
     haversine_km lat1 lon lat2 lon
     = Ok (6371 * (Rabs (lat2 - lat1) * (PI / 180)))) /\
  (forall lon1 lon2 : R,
     -180 <= lon2 - lon1 <= 180 ->
     haversine_km 0 lon1 0 lon2
     = Ok (6371 * (Rabs (lon2 - lon1) * (PI / 180)))).
Proof.
  pose proof PI_RGT_0 as Hpi.
  assert (Harc : forall t : R, -180 <= t <= 180 ->
            of_radicand (sin (radians t / 2) ^ 2)
            = Ok (6371 * (Rabs t * (PI / 180)))).
  { intros t Ht. rewrite of_radicand_sin_squared by (unfold radians; nra).
    f_equal. unfold radians.
    replace (t * (PI / 180) / 2) with (t * (PI / 360)) by field.
    rewrite Rabs_mult, (Rabs_right (PI / 360)) by lra. field. }
  split.
  - intros lat1 lat2 lon H1 H2. unfold haversine_km, radicand.
    replace (radians (lon - lon) / 2) with 0 by (unfold radians; field).
    rewrite sin_0.
    replace (sin (radians (lat2 - lat1) / 2) ^ 2
             + cos (radians lat1) * cos (radians lat2) * 0 ^ 2)
      with (sin (radians (lat2 - lat1) / 2) ^ 2) by ring.
    apply Harc. lra.
  - intros lon1 lon2 H. unfold haversine_km, radicand.
    replace (radians (0 - 0) / 2) with 0 by (unfold radians; field).
    replace (radians 0) with 0 by (unfold radians; ring).
    rewrite sin_0, cos_0.
    replace (0 ^ 2 + 1 * 1 * sin (radians (lon2 - lon1) / 2) ^ 2)
      with (sin (radians (lon2 - lon1) / 2) ^ 2) by ring.
    apply Harc. assumption.
Qed.

Lemma haversine_km_along_meridian_and_equator_witness :
  haversine_km 40 (-3) 41 (-3) = Ok (6371 * (Rabs (41 - 40) * (PI / 180))) /\
  haversine_km 0 0 0 180 = Ok (6371 * (Rabs (180 - 0) * (PI / 180))).
Proof.
  split.
  - apply (proj1 haversine_km_along_meridian_and_equator); lra.
  - apply (proj2 haversine_km_along_meridian_and_equator); lra.
Defined.

End HaversineGeometry.

(** ** The reading of the weather score *)

Lemma runnable_hour_points (tp : Q * Q) :
  if runnable_hour tp then (1 <= points_of tp <= 2)%Z
  else points_of tp = 0%Z.
Proof.
  destruct tp as [t p]. unfold runnable_hour, points_of, hour_points.
  cbn [fst snd].
  destruct (Qgtb p 2) eqn:Hp; destruct (Qle_bool 5 t) eqn:H5;
    destruct (Qle_bool t 28) eqn:H28; cbn [negb andb]; order_facts;
    destruct (Qlt_le_dec 2 p); destruct (Qlt_le_dec t 10);
    destruct (Qlt_le_dec t 5); destruct (Qlt_le_dec 24 t);
    destruct (Qlt_le_dec 28 t); try lia; exfalso; Lqa.lra.
Qed.

Lemma points_sum_by_runnable_hours (l : list (Q * Q)) :
  (Z.of_nat (List.length (filter runnable_hour l))
   <= fold_right Z.add 0 (map points_of l)
   <= 2 * Z.of_nat (List.length (filter runnable_hour l)))%Z.
Proof.
  induction l as [|tp l IH]; [cbn; lia|].
  cbn [filter map fold_right].
  pose proof (runnable_hour_points tp) as H.
  destruct (runnable_hour tp); cbn [List.length]; lia.
Qed.

(** The weather score lies between the number of runnable hours of the day
    (no heavy rain, 5 to 28 degrees) and twice that number.  Hence a day is
    read as "Muy buen tiempo" only when at least 15 of its hours are
    runnable, and a day with 10 runnable hours or more is never read as "Mal
    tiempo". *)
Theorem weather_reading_counts_runnable_hours (temps precs : list Q) :
  let n := Z.of_nat (List.length
                       (filter runnable_hour (combine temps precs))) in
  (n <= hourly_score temps precs <= 2 * n)%Z /\
  (interpretar_clima (hourly_score temps precs)
   = "🌞 Muy buen tiempo (sin lluvia significativa)"%string ->
   (15 <= n)%Z) /\
  ((10 <= n)%Z ->
   interpretar_clima (hourly_score temps precs)
   <> "🌧 Mal tiempo (lluvia o temperaturas adversas)"%string).
Proof.
  intros n.
  assert (H : (n <= hourly_score temps precs <= 2 * n)%Z).
  { unfold hourly_score. rewrite fold_hour_step.
    pose proof (points_sum_by_runnable_hours (combine temps precs)).
    subst n. lia. }
  split; [exact H|]. unfold interpretar_clima.
  destruct (30 <=? hourly_score temps precs)%Z eqn:H30;
    [|destruct (20 <=? hourly_score temps precs)%Z eqn:H20;
      [|destruct (10 <=? hourly_score temps precs)%Z eqn:H10]];
    split; intros; try discriminate; lia.
Qed.

Lemma weather_reading_counts_runnable_hours_witness :
  interpretar_clima
    (hourly_score (temperature_2m Sample.mild_day)
                  (precipitation Sample.mild_day))
  <> "🌧 Mal tiempo (lluvia o temperaturas adversas)"%string.
Proof.
  apply (proj2 (proj2 (weather_reading_counts_runnable_hours
                         (temperature_2m Sample.mild_day)
                         (precipitation Sample.mild_day)))).
  vm_compute. discriminate.
Defined.

(** ** The console *)

Section ConsoleFacts.

Variable py_int : string -> option Z.
Variable py_float : string -> option Q.
Variable strip_lower : string -> string.

(** [elegir_dia] never raises: it returns the first line that reads as a
    number from 1 to 8, less one, hence an offset from 0 to 7, having turned
    down every line before it; and on an input without such a line it hangs. *)
Theorem elegir_dia_returns_first_valid_choice (inputs : list string) :
  elegir_dia py_int inputs <> EOFError /\
  (forall d rest,
     elegir_dia py_int inputs = Returned d rest ->
     (0 <= d <= 7)%Z /\
     exists skipped line,
       inputs = skipped ++ line :: rest /\
       py_int line = Some (d + 1)%Z /\
       Forall (not_a_day py_int) skipped) /\
  (elegir_dia py_int inputs = Hangs <-> Forall (not_a_day py_int) inputs).
Proof.
  induction inputs as [|line inputs (IHe & IHr & IHh)]; cbn [elegir_dia].
  - repeat split; try discriminate; constructor.
  - unfold not_a_day in *.
    destruct (py_int line) as [n|] eqn:Hn.
    + destruct ((1 <=? n) && (n <=? 8))%Z eqn:Hv.
      * apply andb_true_iff in Hv as [H1 H8].
        apply Z.leb_le in H1, H8.
        split; [discriminate|]. split.
        -- intros d rest H. injection H as <- <-. split; [lia|].
           exists [], line. cbn. repeat split; trivial.
           now replace (n - 1 + 1)%Z with n by lia.
        -- split; [discriminate|].
           intros H. inversion H as [|? ? Hbad _]; subst.
           rewrite Hn in Hbad. exfalso. apply Hbad. lia.
      * assert (Hbad : ~ (1 <= n <= 8)%Z).
        { intros [H1 H8]. apply Z.leb_le in H1, H8.
          rewrite H1, H8 in Hv. discriminate. }
        split; [exact IHe|]. split.
        -- intros d rest H.
           destruct (IHr d rest H) as (Hd & sk & l & -> & Hl & Hsk).
           split; [exact Hd|]. exists (line :: sk), l.
           repeat split; trivial. constructor; [now rewrite Hn | exact Hsk].
        -- rewrite IHh. split; intros H.
           ++ constructor; [now rewrite Hn | exact H].
           ++ now inversion H.
    + split; [exact IHe|]. split.
      * intros d rest H.
        destruct (IHr d rest H) as (Hd & sk & l & -> & Hl & Hsk).
        split; [exact Hd|]. exists (line :: sk), l.
        repeat split; trivial. constructor; [now rewrite Hn | exact Hsk].
      * rewrite IHh. split; intros H.
        -- constructor; [now rewrite Hn | exact H].
        -- now inversion H.
Qed.

Lemma pedir_coordenadas_returned (n : nat) :
  forall inputs lat lon rest,
    (List.length inputs <= n)%nat ->
    pedir_coordenadas py_float inputs = Returned (lat, lon) rest ->
    exists skipped l1 l2,
      inputs = skipped ++ l1 :: l2 :: rest /\
      turned_down py_float skipped /\
      py_float l1 = Some lat /\ py_float l2 = Some lon.
Proof.
  induction n as [|n IH]; intros inputs lat lon rest Hlen H.
  - destruct inputs; [discriminate | cbn in Hlen; lia].
  - destruct inputs as [|l1 inputs]; [discriminate|].
    cbn [pedir_coordenadas] in H. cbn [List.length] in Hlen.
    destruct (py_float l1) as [x|] eqn:H1.
    + destruct inputs as [|l2 inputs]; [discriminate|].
      cbn [List.length] in Hlen.
      destruct (py_float l2) as [y|] eqn:H2.
      * injection H as <- <- <-. exists [], l1, l2.
        repeat split; trivial. constructor.
      * destruct (IH inputs lat lon rest ltac:(lia) H)
          as (sk & a & b & -> & Hsk & Ha & Hb).
        exists (l1 :: l2 :: sk), a, b. repeat split; trivial.
        now apply (bad_longitude py_float l1 l2 x).
    + destruct (IH inputs lat lon rest ltac:(lia) H)
        as (sk & a & b & -> & Hsk & Ha & Hb).
      exists (l1 :: sk), a, b. repeat split; trivial.
      now apply bad_latitude.
Qed.

Lemma pedir_coordenadas_skips (skipped tail : list string) :
  turned_down py_float skipped ->
  pedir_coordenadas py_float (skipped ++ tail)
  = pedir_coordenadas py_float tail.
Proof.
  induction 1 as [|l1 more H1 _ IH|l1 l2 lat more H1 H2 _ IH].
  - reflexivity.
  - cbn [app pedir_coordenadas]. now rewrite H1.
  - cbn [app pedir_coordenadas]. now rewrite H1, H2.
Qed.

(** [elegir_ubicacion] returns a pair in two ways and no other.  On a first
    answer that is not "s" once stripped and lowered it returns Puerta del
    Sol, having read that line alone.  After an "s" it returns what
    [float] reads from two lines typed one after the other, whatever the two
    numbers are (no range is checked), once the earlier lines are used up
    by attempts that failed. *)
Theorem elegir_ubicacion_default_or_two_consecutive_lines
    (inputs : list string) (lat lon : Q) (rest : list string) :
  elegir_ubicacion py_float strip_lower inputs = Returned (lat, lon) rest <->
  (exists resp,
     inputs = resp :: rest /\ strip_lower resp <> "s"%string /\
     lat = DEFAULT_LAT /\ lon = DEFAULT_LON) \/
  (exists resp skipped l1 l2,
     inputs = resp :: skipped ++ l1 :: l2 :: rest /\
     strip_lower resp = "s"%string /\
     turned_down py_float skipped /\
     py_float l1 = Some lat /\ py_float l2 = Some lon).
Proof.
  split.
  - destruct inputs as [|resp inputs]; [discriminate|].
    cbn [elegir_ubicacion].
    destruct (String.eqb (strip_lower resp) "s") eqn:Hs; intros H.
    + right. apply String.eqb_eq in Hs.
      apply (pedir_coordenadas_returned (List.length inputs)) in H
        as (sk & l1 & l2 & -> & Hsk & H1 & H2); [|lia].
      exists resp, sk, l1, l2. auto.
    + left. apply String.eqb_neq in Hs. injection H as <- <- <-.
      exists resp. auto.
  - intros [(resp & -> & Hs & -> & ->)
           |(resp & sk & l1 & l2 & -> & Hs & Hsk & H1 & H2)];
      cbn [elegir_ubicacion].
    + apply String.eqb_neq in Hs. now rewrite Hs.
    + apply String.eqb_eq in Hs. rewrite Hs.
      rewrite pedir_coordenadas_skips by assumption.
      cbn [pedir_coordenadas]. now rewrite H1, H2.
Qed.

End ConsoleFacts.

Lemma elegir_dia_returns_first_valid_choice_witness :
  elegir_dia Keyboard.py_int ["x"; "9"; "3"; "n"]%string
  = Returned 2%Z ["n"%string] /\
  (0 <= 2 <= 7)%Z.
Proof.
  split; [reflexivity|].
  exact (proj1 (proj1 (proj2 (elegir_dia_returns_first_valid_choice
                                Keyboard.py_int ["x"; "9"; "3"; "n"]%string))
                      2%Z ["n"%string] eq_refl)).
Defined.

Lemma elegir_ubicacion_default_or_two_consecutive_lines_witness :
  elegir_ubicacion Keyboard.py_float Keyboard.strip_lower
    ["s"; "40"; "x"; "1000"; "2"; "7"]%string
  = Returned (1000, 2) ["7"%string] /\
  elegir_ubicacion Keyboard.py_float Keyboard.strip_lower
    ["n"; "40"]%string
  = Returned (DEFAULT_LAT, DEFAULT_LON) ["40"%string].
Proof.
  split.
  - apply (proj2 (elegir_ubicacion_default_or_two_consecutive_lines
                    Keyboard.py_float Keyboard.strip_lower
                    ["s"; "40"; "x"; "1000"; "2"; "7"]%string
                    1000 2 ["7"%string])).
    right. exists "s"%string, ["40"; "x"]%string, "1000"%string, "2"%string.
    split; [reflexivity|]. split; [reflexivity|]. split.
    + apply (bad_longitude Keyboard.py_float "40" "x" 40);
        [reflexivity | reflexivity | constructor].
    + split; reflexivity.
  - apply (proj2 (elegir_ubicacion_default_or_two_consecutive_lines
                    Keyboard.py_float Keyboard.strip_lower
                    ["n"; "40"]%string
                    DEFAULT_LAT DEFAULT_LON ["40"%string])).
    left. exists "n"%string. repeat split. discriminate.
Defined.

(** ** The export *)

Lemma writerows_of_candidates (cs : list candidate)
    (written : list (list cell)) (c0 : candidate) :
  writerows (map fst (items c0)) (map items cs) written
  = (Ok tt, written ++ map (fun c => map snd (items c)) cs).
Proof.
  revert written. induction cs as [|c cs IH]; intros written.
  - cbn. now rewrite app_nil_r.
  - cbn [map writerows].
    change (dict_to_list (map fst (items c0)) (items c))
      with (Ok (map snd (items c))).
    lazy iota beta. rewrite IH, <- app_assoc. reflexivity.
Qed.

Lemma export_of_candidates (cs : list candidate) (file : option csv_file) :
  export_table_to_csv (map items cs) file
  = (Ok tt,
     match cs with
     | [] => file
     | c0 :: _ =>
         Some {| header := map fst (items c0);
                 records := map (fun c => map snd (items c)) cs |}
     end).
Proof.
  destruct cs as [|c cs]; [reflexivity|].
  unfold export_table_to_csv. cbn [map].
  change (items c :: map items cs) with (map items (c :: cs)).
  rewrite (writerows_of_candidates (c :: cs) [] c). reflexivity.
Qed.

(** Exporting the candidates of a run never raises.  Without candidates the
    dashboard file is left as it was, missing or out of date; otherwise it
    is replaced by the thirteen column names and one record per candidate,
    in the order of the list. *)
Theorem export_writes_one_record_per_candidate
    (cs : list candidate) (file : option csv_file) :
  export_table_to_csv (map items cs) file
  = (Ok tt,
     match cs with
     | [] => file
     | _ :: _ =>
         Some {| header :=
                   ["day"; "user_lat"; "user_lon"; "name"; "address";
                    "location_lat"; "location_lon"; "distance_km";
                    "route_minutes"; "elevation"; "elevation_category";
                    "weather_score"; "final_score"]%string;
                 records := map (fun c => map snd (items c)) cs |}
     end).
Proof.
  rewrite export_of_candidates. now destruct cs.
Qed.

Lemma elegir_dia_offset (py_int : string -> option Z)
    (inputs : list string) (d : Z) (rest : list string) :
  elegir_dia py_int inputs = Returned d rest -> (0 <= d <= 7)%Z.
Proof.
  induction inputs as [|line inputs IH]; cbn [elegir_dia]; [discriminate|].
  destruct (py_int line) as [n|]; [|exact IH].
  destruct ((1 <=? n) && (n <=? 8))%Z eqn:Hv; [|exact IH].
  apply andb_true_iff in Hv as [H1 H8]. apply Z.leb_le in H1, H8.
  intros H. injection H as <- _. lia.
Qed.

Section Script.

Variable py_int : string -> option Z.
Variable py_float : string -> option Q.
Variable strip_lower : string -> string.
Variable haversine_km : Q -> Q -> Q -> Q -> outcome Q.
Variable open_meteo : Q -> Q -> date -> response forecast.
Variable google_elevation : Q -> Q -> response (list Q).
Variable google_directions : Q -> Q -> Q -> Q -> response (list (list Z)).
Variable parks_col : list park.
Variable today : date.

(** The script asks for the forecast of a day from today to a week ahead.
    It rewrites the dashboard file exactly when it recommends a park, and the
    file then holds the record of that park among one record per park
    within 15 km; when the query raises or finds no park within range, the
    file is left as it was. *)
Theorem main_rewrites_the_file_iff_it_recommends
    (inputs rest : list string) (file file' : option csv_file)
    (calls : list call) (r : outcome report) :
  main py_int py_float strip_lower haversine_km open_meteo google_elevation
       google_directions parks_col today inputs file
  = Returned (calls, file', r) rest ->
  match r with
  | Raise _ => file' = file
  | Ok NoParks =>
      file' = file /\
      exists ulat ulon d,
        (0 <= d <= 7)%Z /\ calls = [OpenMeteo ulat ulon (today + d)%Z]
  | Ok (Recommendation c) =>
      exists f ulat ulon d asked,
        file' = Some f /\
        In (map snd (items c)) (records f) /\
        (0 <= d <= 7)%Z /\
        calls = OpenMeteo ulat ulon (today + d)%Z :: asked /\
        List.length asked = (2 * List.length (records f))%nat /\
        List.length (records f)
        = List.length (filter (in_range haversine_km ulat ulon 15) parks_col)
  end.
Proof.
  unfold main.
  destruct (elegir_dia py_int inputs) as [d rest1| |] eqn:Hd;
    try discriminate.
  destruct (elegir_ubicacion py_float strip_lower rest1)
    as [[ulat ulon] rest2| |] eqn:Hu; try discriminate.
  pose proof (elegir_dia_offset py_int inputs d rest1 Hd) as Hrange.
  destruct (best_park_for_day haversine_km open_meteo google_elevation
              google_directions parks_col today ulat ulon d 15 [])
    as [[[mejor cs]|e] log] eqn:Hrun.
  - rewrite export_of_candidates.
    intros H. injection H as <- <- <- <-.
    pose proof Hrun as Hok.
    apply run_ok in Hok as (data & _ & Hfold & Hall & Hlog).
    apply Forall2_length in Hall. cbn [app] in Hlog.
    destruct cs as [|c0 cs'].
    + cbn in Hfold. subst mejor. split; [reflexivity|].
      exists ulat, ulon, d. split; [exact Hrange|].
      destruct (filter (in_range haversine_km ulat ulon 15) parks_col);
        [exact Hlog | discriminate].
    + destruct (fold_update_mejor_first_max (c0 :: cs'))
        as (i & b & Hb & Hi & _); [discriminate|].
      rewrite Hb in Hfold. subst mejor.
      eexists _, ulat, ulon, d,
        (flat_map (calls_of ulat ulon)
           (filter (in_range haversine_km ulat ulon 15) parks_col)).
      split; [reflexivity|]. cbn [records]. rewrite length_map. split.
      { apply (in_map (fun c => map snd (items c))).
        eapply nth_error_In. exact Hi. }
      split; [exact Hrange|]. split; [exact Hlog|]. split; [|now symmetry].
      rewrite <- Hall. clear.
      induction (filter (in_range haversine_km ulat ulon 15) parks_col)
        as [|p l IH]; [reflexivity|].
      cbn [flat_map]. rewrite length_app, IH. unfold calls_of.
      destruct (park_coordinates p). cbn. lia.
  - intros H. injection H as <- <- <- <-. reflexivity.
Qed.

End Script.

Lemma main_rewrites_the_file_iff_it_recommends_witness :
  exists calls file' c,
    main Keyboard.py_int Keyboard.py_float Keyboard.strip_lower
         Sample.haversine_km Sample.open_meteo Sample.google_elevation
         Sample.google_directions
         [Sample.alcala; Sample.retiro; Sample.oeste] Sample.today
         ["2"; "n"]%string None
    = Returned (calls, file', Ok (Recommendation c)) [] /\
    name c = "Parque de El Retiro"%string /\
    exists f, file' = Some f /\ List.length (records f) = 2%nat /\
              In (map snd (items c)) (records f).
Proof.
  eexists _, _, _. split; [vm_compute; reflexivity|].
  split; [reflexivity|].
  pose proof (main_rewrites_the_file_iff_it_recommends
                Keyboard.py_int Keyboard.py_float Keyboard.strip_lower
                Sample.haversine_km Sample.open_meteo Sample.google_elevation
                Sample.google_directions
                [Sample.alcala; Sample.retiro; Sample.oeste] Sample.today
                ["2"; "n"]%string [] None _ _ _
                ltac:(vm_compute; reflexivity)) as H.
  cbv beta iota in H.
  destruct H as (f & ulat & ulon & d & asked & Hf & Hin & _ & _ & _ & _).
  exists f. split; [exact Hf|]. split; [|exact Hin].
  injection Hf as <-. reflexivity.
Defined.

(** ** The ETL of the catalogue *)

(** [extract_parks] keeps the first 200 records of "@graph" and no more; an
    answer without "@graph" gives no record, and a failed request is the
    failure of the extraction. *)
Theorem extract_parks_keeps_the_first_200 (resp : response catalogue) :
  (forall raws, extract_parks resp = Done raws ->
     (List.length raws <= 200)%nat /\
     exists data dropped,
       resp = Json data /\
       match graph data with Some l => l | None => [] end
       = raws ++ dropped /\
       (dropped <> [] -> List.length raws = 200%nat)) /\
  (forall e, fetch resp = Raise e -> extract_parks resp = Failed (Fetch e)).
Proof.
  split.
  - intros raws H. unfold extract_parks in H.
    destruct resp as [| status | data]; unfold fetch in H;
      try discriminate.
    set (l := match graph data with Some l => l | None => [] end) in *.
    assert (Hr : raws = firstn MAX_PARKS l) by congruence.
    rewrite Hr. clear H Hr.
    split; [apply firstn_le_length|].
    exists data, (skipn MAX_PARKS l).
    split; [reflexivity|]. split; [symmetry; apply firstn_skipn|].
    intros Hd. rewrite length_firstn. unfold MAX_PARKS in *.
    destruct (Nat.le_gt_cases 200 (List.length l)) as [Hle|Hgt]; [lia|].
    exfalso. apply Hd. apply skipn_all2. lia.
  - intros e H. unfold extract_parks. now rewrite H.
Qed.

Lemma dict_get_failure (d : json) (key : string) (default : json)
    (e : etl_exn) :
  dict_get d key default = Failed e -> e = AttributeError.
Proof.
  destruct d; cbn; try (intros H; inversion H; reflexivity).
  destruct (find (fun kv => String.eqb (fst kv) key) members) as [[? ?]|];
    discriminate.
Qed.

Lemma dict_get_object (members : list (string * json)) (key : string)
    (default : json) :
  exists v, dict_get (JObject members) key default = Done v.
Proof.
  cbn. destruct (find (fun kv => String.eqb (fst kv) key) members)
    as [[? v]|]; eauto.
Qed.

Lemma dict_get_found (members : list (string * json)) (key : string)
    (default v : json) :
  find (fun kv => String.eqb (fst kv) key) members = Some (key, v) ->
  dict_get (JObject members) key default = Done v.
Proof.
  intros H. cbn. now rewrite H.
Qed.

Lemma dict_get_not_object (v : json) (key : string) (default : json) :
  (forall inner, v <> JObject inner) ->
  dict_get v key default = Failed AttributeError.
Proof.
  intros H. destruct v; try reflexivity. exfalso. now apply (H members).
Qed.

Lemma dict_get_done (d : json) (key : string) (default v : json) :
  dict_get d key default = Done v -> exists members, d = JObject members.
Proof.
  destruct d; cbn; try discriminate. eauto.
Qed.

Lemma to_float_failure (py_float : string -> option Q) (v : json)
    (e : etl_exn) :
  to_float py_float v = Failed e ->
  e = OverflowError /\
  exists q, v = JNumber q /\ DOUBLE_OVERFLOW <= Qabs q.
Proof.
  destruct v; cbn; try discriminate.
  destruct (Qle_bool DOUBLE_OVERFLOW (Qabs q)) eqn:Hq; [|discriminate].
  intros H. injection H as <-. apply Qle_bool_iff in Hq. eauto.
Qed.

Lemma to_float_overflow (py_float : string -> option Q) (q : Q) :
  DOUBLE_OVERFLOW <= Qabs q ->
  to_float py_float (JNumber q) = Failed OverflowError.
Proof.
  intros H. apply Qle_bool_iff in H. cbn. now rewrite H.
Qed.

(** Closes a goal [Failed e0 = Failed e -> e = AttributeError \/ _] from the
    equation [E] of the lookup that failed. *)
Ltac fails_in E :=
  let H := fresh in
  intros H; injection H as <-; left; exact (dict_get_failure _ _ _ _ E).

(** Closes a goal [Failed e0 = Failed e -> _ \/ e = OverflowError] from the
    equation [E] of the conversion that failed. *)
Ltac overflows_in E :=
  let H := fresh in
  intros H; injection H as <-; right;
  exact (proj1 (to_float_failure _ _ _ E)).

Lemma transform_park_failure (py_float : string -> option Q) (raw : json)
    (e : etl_exn) :
  transform_park py_float raw = Failed e ->
  e = AttributeError \/ e = OverflowError.
Proof.
  unfold transform_park.
  destruct (dict_get raw "title" JNull) eqn:E1; [|fails_in E1].
  destruct (dict_get raw "address" (JObject [])) as [ai|] eqn:E2;
    [|fails_in E2].
  destruct (dict_get ai "street-address" JNull) eqn:E3; [|fails_in E3].
  destruct (dict_get raw "location" (JObject [])) as [li|] eqn:E4;
    [|fails_in E4].
  destruct (dict_get li "latitude" JNull) as [latv|] eqn:E5;
    [|fails_in E5].
  destruct (dict_get li "longitude" JNull) as [lonv|] eqn:E6;
    [|fails_in E6].
  destruct (is_none latv || is_none lonv); [discriminate|].
  destruct (to_float py_float latv) as [[lat|]|] eqn:F1;
    [|discriminate|overflows_in F1].
  destruct (to_float py_float lonv) as [[lon|]|] eqn:F2;
    [|discriminate|overflows_in F2].
  destruct (dict_get raw "equipment" JNull) eqn:E7; [|fails_in E7].
  destruct (dict_get raw "schedule" JNull) eqn:E8; [|fails_in E8].
  discriminate.
Qed.

Section TransformFacts.

Variable py_float : string -> option Q.

Local Abbreviation transform := (transform_park py_float).

Lemma transform_park_inv (raw : json) (doc : park_doc) :
  transform raw = Done (Some doc) ->
  exists location latv lonv lat lon,
    dict_get raw "location" (JObject []) = Done location /\
    dict_get location "latitude" JNull = Done latv /\
    dict_get location "longitude" JNull = Done lonv /\
    latv <> JNull /\ lonv <> JNull /\
    to_float py_float latv = Done (Some lat) /\
    to_float py_float lonv = Done (Some lon) /\
    doc_coordinates doc = (lon, lat) /\
    doc_location_type doc = "Point"%string /\
    doc_source doc = "datos.madrid.es"%string /\
    dict_get raw "title" JNull = Done (doc_name doc) /\
    (forall v, doc_equipment doc = Some v ->
       dict_get raw "equipment" JNull = Done v /\ json_truthy v = true) /\
    (forall v, doc_schedule doc = Some v ->
       dict_get raw "schedule" JNull = Done v /\ json_truthy v = true).
Proof.
  unfold transform_park.
  destruct (dict_get raw "title" JNull) as [name|] eqn:Hname;
    [|discriminate].
  destruct (dict_get raw "address" (JObject [])) as [ai|]; [|discriminate].
  destruct (dict_get ai "street-address" JNull) as [addr|]; [|discriminate].
  destruct (dict_get raw "location" (JObject [])) as [li|] eqn:Hloc;
    [|discriminate].
  destruct (dict_get li "latitude" JNull) as [latv|] eqn:Hlat;
    [|discriminate].
  destruct (dict_get li "longitude" JNull) as [lonv|] eqn:Hlon;
    [|discriminate].
  destruct (is_none latv || is_none lonv) eqn:Hnone; [discriminate|].
  apply orb_false_iff in Hnone as [Hn1 Hn2].
  destruct (to_float py_float latv) as [[lat|]|] eqn:Hflat;
    try discriminate.
  destruct (to_float py_float lonv) as [[lon|]|] eqn:Hflon;
    try discriminate.
  destruct (dict_get raw "equipment" JNull) as [eq|] eqn:Heq;
    destruct (dict_get raw "schedule" JNull) as [sc|] eqn:Hsc;
    try discriminate.
  intros H. injection H as <-. cbn.
  exists li, latv, lonv, lat, lon.
  assert (H1 : latv <> JNull) by (intros ->; discriminate).
  assert (H2 : lonv <> JNull) by (intros ->; discriminate).
  repeat (split; [trivial; fail|]). split.
  - intros v Hv. destruct (json_truthy eq) eqn:Ht; inversion Hv; subst.
    now split.
  - intros v Hv. destruct (json_truthy sc) eqn:Ht; inversion Hv; subst.
    now split.
Qed.

(** A document comes only from a record whose "location" holds a latitude
    and a longitude that are not null and that [float] accepts; the
    document stores them as [lon, lat], under the type "Point" and the
    source "datos.madrid.es", and has "equipment" and "schedule" only
    when the record gives them a truthy value. *)
Theorem transform_park_document (raw : json) (doc : park_doc) :
  transform raw = Done (Some doc) ->
  exists location latv lonv lat lon,
    dict_get raw "location" (JObject []) = Done location /\
    dict_get location "latitude" JNull = Done latv /\
    dict_get location "longitude" JNull = Done lonv /\
    latv <> JNull /\ lonv <> JNull /\
    to_float py_float latv = Done (Some lat) /\
    to_float py_float lonv = Done (Some lon) /\
    doc_coordinates doc = (lon, lat) /\
    doc_location_type doc = "Point"%string /\
    doc_source doc = "datos.madrid.es"%string /\
    dict_get raw "title" JNull = Done (doc_name doc) /\
    (forall v, doc_equipment doc = Some v ->
       dict_get raw "equipment" JNull = Done v /\ json_truthy v = true) /\
    (forall v, doc_schedule doc = Some v ->
       dict_get raw "schedule" JNull = Done v /\ json_truthy v = true).
Proof.
  apply transform_park_inv.
Qed.

(** What [transform_park] does on the first five lookups of a record that
    passes them, with the values they give. *)
Lemma transform_park_conversions (raw ai addr li latv lonv : json) :
  dict_get raw "address" (JObject []) = Done ai ->
  dict_get ai "street-address" JNull = Done addr ->
  dict_get raw "location" (JObject []) = Done li ->
  dict_get li "latitude" JNull = Done latv ->
  dict_get li "longitude" JNull = Done lonv ->
  latv <> JNull -> lonv <> JNull ->
  (to_float py_float latv = Failed OverflowError ->
   transform raw = Failed OverflowError) /\
  (forall lat, to_float py_float latv = Done (Some lat) ->
     to_float py_float lonv = Failed OverflowError ->
     transform raw = Failed OverflowError).
Proof.
  intros Ha Hs Hl Hlat Hlon Hn1 Hn2. unfold transform_park.
  destruct (dict_get_done _ _ _ _ Ha) as [members ->].
  destruct (dict_get_object members "title" JNull) as [name ->].
  rewrite Ha, Hs, Hl, Hlat, Hlon.
  assert (Hnone : is_none latv || is_none lonv = false).
  { destruct latv; destruct lonv; trivial; congruence. }
  rewrite Hnone. split.
  - now intros ->.
  - now intros lat -> ->.
Qed.

(** A record is not skipped for a malformed "location" or "address", nor
    for a coordinate too large for a float.  [transform_park] raises
    [AttributeError] exactly when the record, its "address" or its
    "location" is there and is not an object, null included; it raises
    [OverflowError] exactly when the lookups pass, both coordinates are not
    null and the latitude, or the longitude after a latitude that converts,
    is a number of magnitude [DOUBLE_OVERFLOW] or more; and it raises nothing
    else. *)
Theorem transform_park_raises_on_what_is_not_an_object (raw : json) :
  (forall e, transform raw = Failed e ->
     e = AttributeError \/ e = OverflowError) /\
  (transform raw = Failed AttributeError <->
   not_object raw \/
   (exists v, dict_get raw "address" (JObject []) = Done v /\
              not_object v) \/
   (exists v, dict_get raw "location" (JObject []) = Done v /\
              not_object v)) /\
  (transform raw = Failed OverflowError <->
   exists ai addr li latv lonv,
     dict_get raw "address" (JObject []) = Done ai /\
     dict_get ai "street-address" JNull = Done addr /\
     dict_get raw "location" (JObject []) = Done li /\
     dict_get li "latitude" JNull = Done latv /\
     dict_get li "longitude" JNull = Done lonv /\
     latv <> JNull /\ lonv <> JNull /\
     ((exists q, latv = JNumber q /\ DOUBLE_OVERFLOW <= Qabs q) \/
      (exists lat q, to_float py_float latv = Done (Some lat) /\
                     lonv = JNumber q /\ DOUBLE_OVERFLOW <= Qabs q))).
Proof.
  split; [|split].
  - intros e. apply transform_park_failure.
  - split.
    + unfold transform_park.
      destruct (dict_get raw "title" JNull) eqn:E1.
      2:{ intros _. left. intros members ->.
          destruct (dict_get_object members "title" JNull) as [v Hv].
          congruence. }
      destruct (dict_get raw "address" (JObject [])) as [ai|] eqn:E2.
      2:{ destruct (dict_get_done _ _ _ _ E1) as [members ->].
          destruct (dict_get_object members "address" (JObject []))
            as [v Hv]. congruence. }
      destruct (dict_get ai "street-address" JNull) eqn:E3.
      2:{ intros _. right. left. exists ai. split; [reflexivity|].
          intros members ->.
          destruct (dict_get_object members "street-address" JNull)
            as [v Hv]. congruence. }
      destruct (dict_get raw "location" (JObject [])) as [li|] eqn:E4.
      2:{ destruct (dict_get_done _ _ _ _ E1) as [members ->].
          destruct (dict_get_object members "location" (JObject []))
            as [v Hv]. congruence. }
      destruct (dict_get li "latitude" JNull) as [latv|] eqn:E5.
      2:{ intros _. right. right. exists li. split; [reflexivity|].
          intros members ->.
          destruct (dict_get_object members "latitude" JNull) as [v Hv].
          congruence. }
      destruct (dict_get li "longitude" JNull) as [lonv|] eqn:E6.
      2:{ destruct (dict_get_done _ _ _ _ E5) as [members ->].
          destruct (dict_get_object members "longitude" JNull) as [v Hv].
          congruence. }
      destruct (is_none latv || is_none lonv); [discriminate|].
      destruct (to_float py_float latv) as [[lat|]|] eqn:F1;
        try discriminate.
      2:{ rewrite (proj1 (to_float_failure _ _ _ F1)). discriminate. }
      destruct (to_float py_float lonv) as [[lon|]|] eqn:F2;
        try discriminate.
      2:{ rewrite (proj1 (to_float_failure _ _ _ F2)). discriminate. }
      destruct (dict_get_done _ _ _ _ E1) as [members ->].
      destruct (dict_get_object members "equipment" JNull) as [eq ->].
      destruct (dict_get_object members "schedule" JNull) as [sc ->].
      discriminate.
    + intros [Hraw | [(v & Hv & Hno) | (v & Hv & Hno)]]; unfold transform_park.
      * now rewrite (dict_get_not_object raw) by assumption.
      * destruct (dict_get_done _ _ _ _ Hv) as [members ->].
        destruct (dict_get_object members "title" JNull) as [name ->].
        rewrite Hv. now rewrite (dict_get_not_object v) by assumption.
      * destruct (dict_get_done _ _ _ _ Hv) as [members ->].
        destruct (dict_get_object members "title" JNull) as [name ->].
        destruct (dict_get_object members "address" (JObject []))
          as [ai ->].
        destruct (dict_get ai "street-address" JNull) eqn:E.
        -- rewrite Hv. now rewrite (dict_get_not_object v) by assumption.
        -- now rewrite (dict_get_failure _ _ _ _ E).
  - split.
    + unfold transform_park.
      destruct (dict_get raw "title" JNull) eqn:E1.
      2:{ rewrite (dict_get_failure _ _ _ _ E1). discriminate. }
      destruct (dict_get raw "address" (JObject [])) as [ai|] eqn:E2.
      2:{ rewrite (dict_get_failure _ _ _ _ E2). discriminate. }
      destruct (dict_get ai "street-address" JNull) as [addr|] eqn:E3.
      2:{ rewrite (dict_get_failure _ _ _ _ E3). discriminate. }
      destruct (dict_get raw "location" (JObject [])) as [li|] eqn:E4.
      2:{ rewrite (dict_get_failure _ _ _ _ E4). discriminate. }
      destruct (dict_get li "latitude" JNull) as [latv|] eqn:E5.
      2:{ rewrite (dict_get_failure _ _ _ _ E5). discriminate. }
      destruct (dict_get li "longitude" JNull) as [lonv|] eqn:E6.
      2:{ rewrite (dict_get_failure _ _ _ _ E6). discriminate. }
      destruct (is_none latv || is_none lonv) eqn:Hnone; [discriminate|].
      apply orb_false_iff in Hnone as [Hn1 Hn2].
      assert (H1 : latv <> JNull) by (intros ->; discriminate).
      assert (H2 : lonv <> JNull) by (intros ->; discriminate).
      destruct (to_float py_float latv) as [[lat|]|] eqn:F1;
        try discriminate.
      2:{ intros _. exists ai, addr, li, latv, lonv.
          repeat (split; [first [assumption | reflexivity]|]). left.
          exact (proj2 (to_float_failure _ _ _ F1)). }
      destruct (to_float py_float lonv) as [[lon|]|] eqn:F2;
        try discriminate.
      2:{ intros _. exists ai, addr, li, latv, lonv.
          repeat (split; [first [assumption | reflexivity]|]). right.
          destruct (proj2 (to_float_failure _ _ _ F2)) as (q & -> & Hq).
          exists lat, q. auto. }
      destruct (dict_get_done _ _ _ _ E1) as [members ->].
      destruct (dict_get_object members "equipment" JNull) as [eq ->].
      destruct (dict_get_object members "schedule" JNull) as [sc ->].
      discriminate.
    + intros (ai & addr & li & latv & lonv
              & Ha & Hs & Hl & Hlat & Hlon & Hn1 & Hn2 & Hover).
      destruct (transform_park_conversions raw ai addr li latv lonv
                  Ha Hs Hl Hlat Hlon Hn1 Hn2) as [Hfirst Hsecond].
      destruct Hover as [(q & -> & Hq) | (lat & q & Hflat & -> & Hq)].
      * apply Hfirst. now apply to_float_overflow.
      * apply (Hsecond lat Hflat). now apply to_float_overflow.
Qed.

End TransformFacts.

Section EtlFacts.

Variable py_float : string -> option Q.

Local Abbreviation transform := (transform_park py_float).
Local Abbreviation keep := (kept py_float).

Lemma transform_loop_done (raws : list json) :
  forall acc docs,
    transform_loop py_float raws acc = Done docs ->
    docs = acc ++ flat_map keep raws /\
    Forall (fun raw => exists r, transform raw = Done r) raws.
Proof.
  induction raws as [|raw raws IH]; intros acc docs H.
  - injection H as <-. cbn. now rewrite app_nil_r.
  - cbn [transform_loop] in H. cbn [flat_map]. unfold kept at 1.
    destruct (transform raw) as [[doc|]|e] eqn:Hr; try discriminate;
      apply IH in H as [-> Hall].
    + rewrite <- app_assoc. split; [reflexivity|]. constructor; eauto.
    + split; [reflexivity|]. constructor; eauto.
Qed.

Lemma transform_loop_first_failure (before after : list json) (raw : json)
    (e : etl_exn) :
  Forall (fun r => exists d, transform r = Done d) before ->
  transform raw = Failed e ->
  forall acc,
    transform_loop py_float (before ++ raw :: after) acc = Failed e.
Proof.
  intros Hbefore Hraw.
  induction Hbefore as [|r before [d Hr] _ IH]; intros acc;
    cbn [app transform_loop].
  - now rewrite Hraw.
  - rewrite Hr. destruct d; apply IH.
Qed.

Lemma transform_loop_failed (raws : list json) (raw : json) (e : etl_exn) :
  In raw raws -> transform raw = Failed e ->
  forall acc, exists e', transform_loop py_float raws acc = Failed e'.
Proof.
  intros Hin Hraw.
  induction raws as [|r raws IH]; [contradiction|]. intros acc.
  cbn [transform_loop].
  destruct (transform r) as [[doc|]|e'] eqn:Hr.
  - destruct Hin as [->|Hin]; [congruence | now apply IH].
  - destruct Hin as [->|Hin]; [congruence | now apply IH].
  - eauto.
Qed.

Lemma kept_at_most_one (raw : json) : (List.length (keep raw) <= 1)%nat.
Proof.
  unfold kept. destruct (transform raw) as [[doc|]|e]; cbn; lia.
Qed.

(** [transform_parks] keeps, in their order, the documents of the records
    that have one, so no more documents than records, each with the source
    "datos.madrid.es" and the type "Point".  One record that raises makes the
    whole transformation raise, whatever the other records are: the
    exception is that of the first record that raises, and no document is
    returned. *)
Theorem transform_parks_keeps_the_valid_records (raws : list json) :
  (forall docs,
     transform_parks py_float raws = Done docs ->
     docs = flat_map keep raws /\
     (List.length docs <= List.length raws)%nat /\
     Forall (fun d => doc_source d = "datos.madrid.es"%string /\
                      doc_location_type d = "Point"%string /\
                      exists raw, In raw raws /\
                                  transform raw = Done (Some d))
            docs) /\
  (forall before raw after e,
     raws = before ++ raw :: after ->
     Forall (fun r => exists d, transform r = Done d) before ->
     transform raw = Failed e ->
     transform_parks py_float raws = Failed e) /\
  (forall raw e,
     In raw raws -> transform raw = Failed e ->
     exists e', transform_parks py_float raws = Failed e').
Proof.
  split.
  - intros docs H. apply transform_loop_done in H as [-> _]. cbn [app].
    split; [reflexivity|]. split.
    + induction raws as [|raw l IH]; [cbn; lia|].
      cbn [flat_map List.length]. rewrite length_app.
      pose proof (kept_at_most_one raw). lia.
    + apply Forall_forall. intros d Hd.
      apply in_flat_map in Hd as (raw & Hraw & Hd).
      unfold kept in Hd.
      destruct (transform raw) as [[doc|]|e] eqn:Hr; try contradiction.
      destruct Hd as [<-|[]].
      destruct (transform_park_inv _ _ _ Hr)
        as (li & latv & lonv & lat & lon
            & _ & _ & _ & _ & _ & _ & _ & _ & Ht & Hs & _).
      repeat split; trivial. eauto.
  - split.
    + intros before raw after e -> Hbefore Hraw. unfold transform_parks.
      now apply transform_loop_first_failure.
    + intros raw e Hin Hraw. unfold transform_parks.
      eapply transform_loop_failed; eassumption.
Qed.

(** A reload that succeeds replaces the collection: whatever it held, it
    then holds the documents of the first 200 records at most and, if there
    is any document, the geospatial index on "location"; with no valid
    record the collection is dropped and stays empty.  A second reload from
    the same answer changes nothing, and a reload that raises leaves the
    collection as it was. *)
Theorem run_etl_parks_replaces_the_collection
    (resp : response catalogue) (col : collection) :
  (forall col',
     run_etl_parks py_float resp col = (col', None) ->
     (List.length (documents col') <= 200)%nat /\
     transform_parks py_float
       (firstn 200 match fetch resp with
                   | Ok data =>
                       match graph data with Some l => l | None => [] end
                   | Raise _ => []
                   end)
     = Done (documents col') /\
     indexes col'
     = match documents col' with
       | [] => []
       | _ :: _ => [("location", "2dsphere")]%string
       end /\
     (forall other,
        run_etl_parks py_float resp other = (col', None)) /\
     run_etl_parks py_float resp col' = (col', None)) /\
  (forall col' e,
     run_etl_parks py_float resp col = (col', Some e) -> col' = col).
Proof.
  assert (Hload : forall docs c,
            load_parks_to_mongo docs true c
            = {| documents := docs;
                 indexes := match docs with
                            | [] => []
                            | _ :: _ => [("location", "2dsphere")]%string
                            end |}).
  { intros [|d docs] c; reflexivity. }
  unfold run_etl_parks, extract_parks. split.
  - intros col' H.
    destruct (fetch resp) as [data|e]; [|discriminate].
    set (raws := firstn MAX_PARKS
                   match graph data with Some l => l | None => [] end) in *.
    destruct (transform_parks py_float raws) as [docs|e] eqn:Ht;
      [|discriminate].
    rewrite Hload in H. injection H as <-. cbn [documents indexes].
    split.
    + apply transform_loop_done in Ht as [-> _]. cbn [app].
      assert (Hlen : (List.length raws <= 200)%nat)
        by apply firstn_le_length.
      revert Hlen. generalize raws. intros l. 
      assert (Hk : (List.length (flat_map keep l) <= List.length l)%nat).
      { induction l as [|raw l IH]; [cbn; lia|].
        cbn [flat_map List.length]. rewrite length_app.
        pose proof (kept_at_most_one raw). lia. }
      lia.
    + split; [exact Ht|]. split; [reflexivity|].
      split; intros; rewrite !Hload; reflexivity.
  - intros col' e H.
    destruct (fetch resp) as [data|e0]; [|now injection H].
    destruct (transform_parks py_float _) as [docs|e1];
      [rewrite Hload in H; discriminate | now injection H].
Qed.

End EtlFacts.

(** ** The ETL on the sample records *)

Lemma extract_parks_keeps_the_first_200_witness :
  (List.length [Catalogue.retiro; Catalogue.unplaced] <= 200)%nat /\
  extract_parks (@TransportFailure catalogue) = Failed (Fetch RequestException).
Proof.
  split.
  - exact (proj1 (proj1 (extract_parks_keeps_the_first_200
                           (Json {| graph := Some [Catalogue.retiro;
                                                    Catalogue.unplaced] |}))
                        [Catalogue.retiro; Catalogue.unplaced] eq_refl)).
  - exact (proj2 (extract_parks_keeps_the_first_200 TransportFailure)
                 RequestException eq_refl).
Defined.

Lemma transform_park_document_witness :
  exists doc,
    transform_park Keyboard.py_float Catalogue.retiro = Done (Some doc) /\
    doc_coordinates doc = (- (36845 # 10000), 404153 # 10000) /\
    doc_equipment doc = None /\
    exists location latv lonv lat lon,
      dict_get Catalogue.retiro "location" (JObject []) = Done location /\
      dict_get location "latitude" JNull = Done latv /\
      dict_get location "longitude" JNull = Done lonv /\
      latv <> JNull /\ lonv <> JNull /\
      to_float Keyboard.py_float latv = Done (Some lat) /\
      to_float Keyboard.py_float lonv = Done (Some lon) /\
      doc_coordinates doc = (lon, lat).
Proof.
  eexists. split; [vm_compute; reflexivity|].
  split; [reflexivity|]. split; [reflexivity|].
  destruct (transform_park_document Keyboard.py_float Catalogue.retiro _
              ltac:(vm_compute; reflexivity))
    as (li & latv & lonv & lat & lon
        & H1 & H2 & H3 & H4 & H5 & H6 & H7 & H8 & _).
  exists li, latv, lonv, lat, lon. auto 10.
Defined.

Lemma transform_park_raises_on_what_is_not_an_object_witness :
  transform_park Keyboard.py_float Catalogue.null_location
  = Failed AttributeError /\
  transform_park Keyboard.py_float Catalogue.huge_latitude
  = Failed OverflowError.
Proof.
  split.
  - apply (proj2 (proj1 (proj2 (transform_park_raises_on_what_is_not_an_object
                                  Keyboard.py_float
                                  Catalogue.null_location)))).
    right. right. exists JNull. split; [reflexivity|].
    intros members. discriminate.
  - apply (proj2 (proj2 (proj2 (transform_park_raises_on_what_is_not_an_object
                                  Keyboard.py_float
                                  Catalogue.huge_latitude)))).
    exists (JObject []), JNull,
      (JObject [("latitude", JNumber (inject_Z (10 ^ 400)));
                ("longitude", JNumber (- (37 # 10)))]%string),
      (JNumber (inject_Z (10 ^ 400))), (JNumber (- (37 # 10))).
    repeat (split; [first [reflexivity | discriminate]|]).
    left. exists (inject_Z (10 ^ 400)). split; [reflexivity|].
    vm_compute. discriminate.
Defined.

Lemma transform_parks_keeps_the_valid_records_witness :
  (exists docs,
     transform_parks Keyboard.py_float
       [Catalogue.retiro; Catalogue.unplaced; Catalogue.oeste] = Done docs /\
     map doc_name docs
     = [JString "Parque de El Retiro"; JString "Parque del Oeste"] /\
     (List.length docs <= 3)%nat) /\
  transform_parks Keyboard.py_float
    [Catalogue.retiro; Catalogue.huge_latitude; Catalogue.null_location]
  = Failed OverflowError.
Proof.
  split.
  - eexists. split; [vm_compute; reflexivity|]. split; [reflexivity|].
    exact (proj1 (proj2 (proj1 (transform_parks_keeps_the_valid_records
                                  Keyboard.py_float
                                  [Catalogue.retiro; Catalogue.unplaced;
                                   Catalogue.oeste])
                               _ ltac:(vm_compute; reflexivity)))).
  - apply (proj1 (proj2 (transform_parks_keeps_the_valid_records
                           Keyboard.py_float
                           [Catalogue.retiro; Catalogue.huge_latitude;
                            Catalogue.null_location]))
                 [Catalogue.retiro] Catalogue.huge_latitude
                 [Catalogue.null_location] OverflowError).
    + reflexivity.
    + constructor; [|constructor]. eexists. vm_compute. reflexivity.
    + vm_compute. reflexivity.
Defined.

Lemma run_etl_parks_replaces_the_collection_witness :
  (exists col',
     run_etl_parks Keyboard.py_float
       (Json {| graph := Some [Catalogue.unplaced] |})
       Catalogue.old_collection = (col', None) /\
     documents col' = [] /\ indexes col' = []) /\
  run_etl_parks Keyboard.py_float
    (Json {| graph := Some [Catalogue.retiro; Catalogue.null_location] |})
    Catalogue.old_collection
  = (Catalogue.old_collection, Some AttributeError).
Proof.
  split.
  - eexists. split; [vm_compute; reflexivity|]. split; [reflexivity|].
    exact (proj1 (proj2 (proj2 (proj1
             (run_etl_parks_replaces_the_collection Keyboard.py_float
                (Json {| graph := Some [Catalogue.unplaced] |})
                Catalogue.old_collection)
             _ ltac:(vm_compute; reflexivity))))).
  - pose proof (proj2 (run_etl_parks_replaces_the_collection
                         Keyboard.py_float
                         (Json {| graph := Some [Catalogue.retiro;
                                                  Catalogue.null_location] |})
                         Catalogue.old_collection)) as H.
    destruct (run_etl_parks Keyboard.py_float
                (Json {| graph := Some [Catalogue.retiro;
                                         Catalogue.null_location] |})
                Catalogue.old_collection) as [col' [e|]] eqn:Hrun.
    + rewrite (H col' e eq_refl).
      vm_compute in Hrun. injection Hrun as _ <-. reflexivity.
    + vm_compute in Hrun. discriminate.
Defined.
